(** * The client of the presentation generator: store, generation page, player

    A shallow embedding of
    - [frontend/src/store/appStore.js]   (the zustand store and its actions),
    - the socket handlers and [handleStartGeneration] of the home page,
    - [frontend/src/pages/PresentationPage.jsx] (player, pause/resume, Q&A),
    - the request shapes of [frontend/src/api/client.js].

    Conventions.  A JavaScript object used as a dictionary is a [gmap] from
    property names to values.  Text carried by values is a sequence of UTF-16
    code units.  [null] and [undefined] are kept apart in [value]; where the
    source only ever tests a reference with [?.], [!] or [||] the two are
    merged into [None].  Playback positions are rationals (every finite
    double is one); no arithmetic is done on them besides the test [> 0]. *)

From Stdlib Require Import ZArith QArith List.
From stdpp Require Import gmap strings list.

Set Warnings "-register-all,-clear-no-such-hyp".
Local Open Scope Z_scope.

(** ** JavaScript values *)

Module Js.

(** A string value: its UTF-16 code units. *)
Definition jsstring := list N.

(** A literal of the source, all of whose characters are ASCII. *)
Definition txt (s : string) : jsstring :=
  map Ascii.N_of_ascii (String.list_ascii_of_string s).

Inductive value : Type :=
| VUndefined
| VNull
| VBool (b : bool)
| VNum (q : Q)
| VStr (s : jsstring)
| VArr (items : list value)
| VObj (fields : gmap string value).

(** ToBoolean. *)
Definition truthy (v : value) : bool :=
  match v with
  | VUndefined | VNull => false
  | VBool b => b
  | VNum q => negb (Qnum q =? 0)
  | VStr s => match s with [] => false | _ => true end
  | VArr _ | VObj _ => true
  end.

(** [a || b] *)
Definition or_else (a b : value) : value := if truthy a then a else b.

(** WhiteSpace and LineTerminator code points, the ones [String.prototype.trim]
    strips. *)
Definition is_space (c : N) : bool :=
  ((c =? 9) || (c =? 10) || (c =? 11) || (c =? 12) || (c =? 13) || (c =? 32)
   || (c =? 160) || (c =? 5760) || ((8192 <=? c) && (c <=? 8202))
   || (c =? 8232) || (c =? 8233) || (c =? 8239) || (c =? 8287)
   || (c =? 12288) || (c =? 65279))%N.

Fixpoint trimStart (s : jsstring) : jsstring :=
  match s with
  | [] => []
  | c :: r => if is_space c then trimStart r else s
  end.

Definition trimEnd (s : jsstring) : jsstring :=
  reverse (trimStart (reverse s)).

Definition trim (s : jsstring) : jsstring := trimEnd (trimStart s).

(** A text that is empty or made of white space only. *)
Definition blank (s : jsstring) : Prop := Forall (fun c => is_space c = true) s.

(** [a[i]] on an array, with a number that is an integer: [undefined]
    ([None]) outside of [0 .. length-1]. *)
Definition index {A} (l : list A) (i : Z) : option A :=
  if i <? 0 then None else l !! Z.to_nat i.

(** A number of the slide arithmetic: an integer or NaN. *)
Inductive num := Int (z : Z) | NaN.

(** [x - 1] where [x] is [undefined] ([None]) or an integer. *)
Definition minus_one (x : option Z) : num :=
  match x with
  | None => NaN
  | Some z => Int (z - 1)
  end.

(** [n || 0]: NaN and 0 are falsy. *)
Definition or_zero (n : num) : Z :=
  match n with
  | NaN => 0
  | Int z => if z =? 0 then 0 else z
  end.

(** A thrown value: what the handlers look at is [error.message] and
    [error.response?.status]. *)
Record error := {
  err_message : string;
  err_status : option Z
}.

Definition TypeError : error :=
  {| err_message := "TypeError"; err_status := None |}.

(** Outcome of a computation that may throw, and of an awaited promise. *)
Inductive result (A : Type) := Ok (a : A) | Throw (e : error).
Arguments Ok {A} a.
Arguments Throw {A} e.

(** [v.k] for a value coming out of JSON: a TypeError on [undefined] and
    [null], [undefined] for a missing property and on primitives. *)
Definition get_prop (v : value) (k : string) : result value :=
  match v with
  | VUndefined | VNull => Throw TypeError
  | VObj fields => Ok (default VUndefined (fields !! k))
  | _ => Ok VUndefined
  end.

End Js.
Import Js.

(** ** Handlers as computations

    A handler runs on a world: the state it can write (store, component
    state, refs) and the trace of what it did to the outside (requests,
    toasts, socket and audio calls).  It may throw; [try_catch] is
    [try { } catch (error) { }].  An [await] is the point where the answer of
    the outside, supplied by the caller, enters the computation. *)

Module Eff.

Definition M (S E A : Type) : Type := S * list E -> result A * (S * list E).

Section Ops.
Context {S E : Type}.

Definition ret {A} (a : A) : M S E A := fun w => (Ok a, w).

Definition bind {A B} (m : M S E A) (k : A -> M S E B) : M S E B :=
  fun w =>
    match m w with
    | (Ok a, w') => k a w'
    | (Throw e, w') => (Throw e, w')
    end.

Definition throw {A} (e : error) : M S E A := fun w => (Throw e, w).

Definition try_catch {A} (m : M S E A) (h : error -> M S E A) : M S E A :=
  fun w =>
    match m w with
    | (Ok a, w') => (Ok a, w')
    | (Throw e, w') => h e w'
    end.

(** Read the live state ([get()] of the store, [ref.current]). *)
Definition gets {A} (f : S -> A) : M S E A := fun w => (Ok (f w.1), w).

Definition modify (f : S -> S) : M S E unit := fun w => (Ok tt, (f w.1, w.2)).

Definition emit (e : E) : M S E unit := fun w => (Ok tt, (w.1, w.2 ++ [e])).

(** [await] of a call whose answer is [r]; also a property access that may
    throw. *)
Definition await {A} (r : result A) : M S E A := fun w => (r, w).

(** Run a handler from a state, with an empty trace. *)
Definition run {A} (m : M S E A) (s : S) : result A * (S * list E) := m (s, []).

Definition final {A} (m : M S E A) (s : S) : S := (run m s).2.1.

Definition trace {A} (m : M S E A) (s : S) : list E := (run m s).2.2.

Definition outcome {A} (m : M S E A) (s : S) : result A := (run m s).1.
End Ops.

#[global] Instance M_ret {S E} : MRet (M S E) := fun A a => ret a.
#[global] Instance M_bind {S E} : MBind (M S E) := fun A B k m => bind m k.

End Eff.
Import Eff.

(** ** The store: [frontend/src/store/appStore.js] *)

Module AppStore.

Record slide := {
  slide_title : value;
  transcript : value
}.

Record course := {
  session_id : jsstring;
  course_title : value;
  slides_content : option (list slide);
  audio_files : option (list value)
}.

Record message := {
  role : string;
  content : value;
  timestamp : jsstring
}.

Record store := {
  isGenerating : bool;
  currentStep : value;
  progress : value;
  courseConfig : gmap string value;
  userSettings : gmap string value;
  availableVoices : list value;
  courseTemplates : list value;
  currentSession : value;
  currentCourse : option course;
  courses : list course;
  currentSlide : Z;
  isPlaying : bool;
  audioProgress : Q;
  isConversationActive : bool;
  conversationHistory : list message
}.

(** zustand's [set] merges a partial state into the store; one function per
    field the actions write. *)
Definition with_isGenerating (x : bool) (s : store) : store :=
  {| isGenerating := x; currentStep := currentStep s; progress := progress s;
     courseConfig := courseConfig s; userSettings := userSettings s;
     availableVoices := availableVoices s; courseTemplates := courseTemplates s;
     currentSession := currentSession s; currentCourse := currentCourse s;
     courses := courses s; currentSlide := currentSlide s;
     isPlaying := isPlaying s; audioProgress := audioProgress s;
     isConversationActive := isConversationActive s;
     conversationHistory := conversationHistory s |}.

Definition with_progress (p st : value) (s : store) : store :=
  {| isGenerating := isGenerating s; currentStep := st; progress := p;
     courseConfig := courseConfig s; userSettings := userSettings s;
     availableVoices := availableVoices s; courseTemplates := courseTemplates s;
     currentSession := currentSession s; currentCourse := currentCourse s;
     courses := courses s; currentSlide := currentSlide s;
     isPlaying := isPlaying s; audioProgress := audioProgress s;
     isConversationActive := isConversationActive s;
     conversationHistory := conversationHistory s |}.

Definition with_courseConfig (x : gmap string value) (s : store) : store :=
  {| isGenerating := isGenerating s; currentStep := currentStep s;
     progress := progress s;
     courseConfig := x; userSettings := userSettings s;
     availableVoices := availableVoices s; courseTemplates := courseTemplates s;
     currentSession := currentSession s; currentCourse := currentCourse s;
     courses := courses s; currentSlide := currentSlide s;
     isPlaying := isPlaying s; audioProgress := audioProgress s;
     isConversationActive := isConversationActive s;
     conversationHistory := conversationHistory s |}.

Definition with_userSettings (x : gmap string value) (s : store) : store :=
  {| isGenerating := isGenerating s; currentStep := currentStep s;
     progress := progress s;
     courseConfig := courseConfig s; userSettings := x;
     availableVoices := availableVoices s; courseTemplates := courseTemplates s;
     currentSession := currentSession s; currentCourse := currentCourse s;
     courses := courses s; currentSlide := currentSlide s;
     isPlaying := isPlaying s; audioProgress := audioProgress s;
     isConversationActive := isConversationActive s;
     conversationHistory := conversationHistory s |}.

Definition with_currentSession (x : value) (s : store) : store :=
  {| isGenerating := isGenerating s; currentStep := currentStep s;
     progress := progress s;
     courseConfig := courseConfig s; userSettings := userSettings s;
     availableVoices := availableVoices s; courseTemplates := courseTemplates s;
     currentSession := x; currentCourse := currentCourse s;
     courses := courses s; currentSlide := currentSlide s;
     isPlaying := isPlaying s; audioProgress := audioProgress s;
     isConversationActive := isConversationActive s;
     conversationHistory := conversationHistory s |}.

Definition with_currentCourse (x : option course) (s : store) : store :=
  {| isGenerating := isGenerating s; currentStep := currentStep s;
     progress := progress s;
     courseConfig := courseConfig s; userSettings := userSettings s;
     availableVoices := availableVoices s; courseTemplates := courseTemplates s;
     currentSession := currentSession s; currentCourse := x;
     courses := courses s; currentSlide := currentSlide s;
     isPlaying := isPlaying s; audioProgress := audioProgress s;
     isConversationActive := isConversationActive s;
     conversationHistory := conversationHistory s |}.

Definition with_courses (x : list course) (s : store) : store :=
  {| isGenerating := isGenerating s; currentStep := currentStep s;
     progress := progress s;
     courseConfig := courseConfig s; userSettings := userSettings s;
     availableVoices := availableVoices s; courseTemplates := courseTemplates s;
     currentSession := currentSession s; currentCourse := currentCourse s;
     courses := x; currentSlide := currentSlide s;
     isPlaying := isPlaying s; audioProgress := audioProgress s;
     isConversationActive := isConversationActive s;
     conversationHistory := conversationHistory s |}.

Definition with_currentSlide (x : Z) (s : store) : store :=
  {| isGenerating := isGenerating s; currentStep := currentStep s;
     progress := progress s;
     courseConfig := courseConfig s; userSettings := userSettings s;
     availableVoices := availableVoices s; courseTemplates := courseTemplates s;
     currentSession := currentSession s; currentCourse := currentCourse s;
     courses := courses s; currentSlide := x;
     isPlaying := isPlaying s; audioProgress := audioProgress s;
     isConversationActive := isConversationActive s;
     conversationHistory := conversationHistory s |}.

Definition with_isPlaying (x : bool) (s : store) : store :=
  {| isGenerating := isGenerating s; currentStep := currentStep s;
     progress := progress s;
     courseConfig := courseConfig s; userSettings := userSettings s;
     availableVoices := availableVoices s; courseTemplates := courseTemplates s;
     currentSession := currentSession s; currentCourse := currentCourse s;
     courses := courses s; currentSlide := currentSlide s;
     isPlaying := x; audioProgress := audioProgress s;
     isConversationActive := isConversationActive s;
     conversationHistory := conversationHistory s |}.

Definition with_audioProgress (x : Q) (s : store) : store :=
  {| isGenerating := isGenerating s; currentStep := currentStep s;
     progress := progress s;
     courseConfig := courseConfig s; userSettings := userSettings s;
     availableVoices := availableVoices s; courseTemplates := courseTemplates s;
     currentSession := currentSession s; currentCourse := currentCourse s;
     courses := courses s; currentSlide := currentSlide s;
     isPlaying := isPlaying s; audioProgress := x;
     isConversationActive := isConversationActive s;
     conversationHistory := conversationHistory s |}.

Definition with_isConversationActive (x : bool) (s : store) : store :=
  {| isGenerating := isGenerating s; currentStep := currentStep s;
     progress := progress s;
     courseConfig := courseConfig s; userSettings := userSettings s;
     availableVoices := availableVoices s; courseTemplates := courseTemplates s;
     currentSession := currentSession s; currentCourse := currentCourse s;
     courses := courses s; currentSlide := currentSlide s;
     isPlaying := isPlaying s; audioProgress := audioProgress s;
     isConversationActive := x;
     conversationHistory := conversationHistory s |}.

Definition with_conversationHistory (x : list message) (s : store) : store :=
  {| isGenerating := isGenerating s; currentStep := currentStep s;
     progress := progress s;
     courseConfig := courseConfig s; userSettings := userSettings s;
     availableVoices := availableVoices s; courseTemplates := courseTemplates s;
     currentSession := currentSession s; currentCourse := currentCourse s;
     courses := courses s; currentSlide := currentSlide s;
     isPlaying := isPlaying s; audioProgress := audioProgress s;
     isConversationActive := isConversationActive s;
     conversationHistory := x |}.

(** The initial state of [create((set, get) => ({ ... }))]. *)
Definition initialCourseConfig : gmap string value :=
  list_to_map
    [ ("topic", VStr (txt "")); ("complexity", VStr (txt "intermediate"));
      ("duration", VStr (txt "45-60 minutes"));
      ("learningStyle", VStr (txt "visual")); ("slideCount", VStr (txt "auto"));
      ("contentDensity", VStr (txt "medium")); ("batchSize", VNum 5);
      ("voice", VStr (txt "default")); ("speed", VNum 1);
      ("prerequisitesHandling", VStr (txt "auto"));
      ("specializedFocus", VStr (txt "balanced"));
      ("presentationStyle", VStr (txt "professional"));
      ("visualStyle", VStr (txt "modern")); ("colorScheme", VStr (txt "default"));
      ("theme", VStr (txt "dark")); ("layout", VStr (txt "modern"));
      ("animations", VBool true); ("autoAdvance", VBool true);
      ("customizations", VObj ∅) ].

Definition initialUserSettings : gmap string value :=
  list_to_map
    [ ("tts", VObj (list_to_map
         [ ("voice", VStr (txt "default")); ("speed", VNum 1);
           ("volume", VNum (8 # 10)) ]));
      ("presentation", VObj (list_to_map
         [ ("theme", VStr (txt "dark")); ("layout", VStr (txt "modern"));
           ("animations", VBool true); ("auto_advance", VBool true) ]));
      ("course_defaults", VObj (list_to_map
         [ ("complexity", VStr (txt "intermediate"));
           ("duration", VStr (txt "45-60 minutes"));
           ("learning_style", VStr (txt "visual"));
           ("content_density", VStr (txt "medium")); ("batch_size", VNum 5) ]));
      ("advanced", VObj (list_to_map
         [ ("prerequisites_handling", VStr (txt "auto"));
           ("specialized_focus", VStr (txt "balanced"));
           ("presentation_style", VStr (txt "professional")) ])) ].

Definition initial : store :=
  {| isGenerating := false; currentStep := VNull; progress := VNum 0;
     courseConfig := initialCourseConfig; userSettings := initialUserSettings;
     availableVoices := []; courseTemplates := [];
     currentSession := VNull; currentCourse := None;
     courses := []; currentSlide := 0;
     isPlaying := false; audioProgress := 0%Q;
     isConversationActive := false;
     conversationHistory := [] |}.

(** *** Actions *)

Definition setGenerating (generating : bool) : store -> store :=
  with_isGenerating generating.

Definition setProgress (p step : value) : store -> store := with_progress p step.

(** [{ ...state.courseConfig, ...config }]: the properties of [config] are
    copied over those of the old object. *)
Definition updateCourseConfig (config : gmap string value) (s : store) : store :=
  with_courseConfig (config ∪ courseConfig s) s.

Definition setCurrentSession (session : value) : store -> store :=
  with_currentSession session.

Definition setCurrentCourse (c : option course) : store -> store :=
  with_currentCourse c.

Definition setCourses (cs : list course) : store -> store := with_courses cs.

Definition addCourse (c : course) (s : store) : store :=
  with_courses (c :: courses s) s.

Definition removeCourse (sessionId : jsstring) (s : store) : store :=
  with_courses
    (filter (fun c => session_id c ≠ sessionId) (courses s)) s.

Definition setCurrentSlide (i : Z) : store -> store := with_currentSlide i.

Definition setPlaying (playing : bool) : store -> store := with_isPlaying playing.

Definition setAudioProgress (p : Q) : store -> store := with_audioProgress p.

(** [state.currentCourse?.slides_content?.length] *)
Definition slidesLength (s : store) : option Z :=
  match currentCourse s with
  | None => None
  | Some c =>
      match slides_content c with
      | None => None
      | Some l => Some (Z.of_nat (length l))
      end
  end.

(** [state.currentCourse?.slides_content?.length - 1 || 0] *)
Definition maxSlide (s : store) : Z := or_zero (minus_one (slidesLength s)).

Definition nextSlide (s : store) : store :=
  with_currentSlide (Z.min (currentSlide s + 1) (maxSlide s)) s.

Definition previousSlide (s : store) : store :=
  with_currentSlide (Z.max (currentSlide s - 1) 0) s.

Definition setConversationActive (active : bool) : store -> store :=
  with_isConversationActive active.

Definition addConversationMessage (m : message) (s : store) : store :=
  with_conversationHistory (conversationHistory s ++ [m]) s.

Definition clearConversationHistory : store -> store :=
  with_conversationHistory [].

Definition setUserSettings (settings : gmap string value) : store -> store :=
  with_userSettings settings.

Definition updateUserSettings (settingsUpdate : gmap string value) (s : store)
  : store :=
  with_userSettings (settingsUpdate ∪ userSettings s) s.

Definition resetCourseGeneration (s : store) : store :=
  with_currentCourse None
    (with_currentSession VNull
       (with_progress (VNum 0) VNull (with_isGenerating false s))).

Definition resetPresentation (s : store) : store :=
  with_conversationHistory []
    (with_isConversationActive false
       (with_audioProgress 0%Q (with_isPlaying false (with_currentSlide 0 s)))).

(** *** Utility functions *)

(** [null] is [None]. A slide is an object, hence truthy, so that
    [slides_content[currentSlide] || null] is the slide whenever there is
    one. *)
Definition getCurrentSlideData (s : store) : option slide :=
  match currentCourse s with
  | None => None
  | Some c =>
      match slides_content c with
      | None => None
      | Some l => index l (currentSlide s)
      end
  end.

Definition hasNextSlide (s : store) : bool := currentSlide s <? maxSlide s.

Definition hasPreviousSlide (s : store) : bool := 0 <? currentSlide s.

(** *** Templates and settings *)

(** A course template, as the templates endpoint lists them. *)
Record template := {
  tpl_complexity : value;
  tpl_duration : value;
  tpl_prerequisites : list value;
  tpl_focus_areas : list value
}.

(** [a.includes(x)] for an array [a] and a string [x]. *)
Definition includesText (a : list value) (x : jsstring) : bool :=
  existsb (fun v => match v with
                    | VStr t => bool_decide (t = x)
                    | _ => false
                    end) a.

Definition applyTemplate (t : template) (s : store) : store :=
  with_courseConfig
    (list_to_map
       [ ("complexity", tpl_complexity t);
         ("duration", tpl_duration t);
         ("prerequisitesHandling",
          VStr (if (0 <? Z.of_nat (length (tpl_prerequisites t)))
                then txt "custom" else txt "auto"));
         ("specializedFocus",
          VStr (if includesText (tpl_focus_areas t) (txt "theoretical")
                then txt "theoretical"
                else if includesText (tpl_focus_areas t) (txt "practical")
                     then txt "practical" else txt "balanced")) ]
     ∪ courseConfig s) s.

(** [settings.<section>.<k>], for the settings object of the response. *)
Definition setting (settings : gmap string value) (section k : string)
  : result value :=
  get_prop (default VUndefined (settings !! section)) k.

(** The object literal [loadUserSettings] hands to [updateCourseConfig]:
    the configuration key, and where in the settings its value is read. *)
Definition settingsToConfig : list (string * (string * string)) :=
  [ ("complexity", ("course_defaults", "complexity"));
    ("duration", ("course_defaults", "duration"));
    ("learningStyle", ("course_defaults", "learning_style"));
    ("contentDensity", ("course_defaults", "content_density"));
    ("batchSize", ("course_defaults", "batch_size"));
    ("voice", ("tts", "voice"));
    ("speed", ("tts", "speed"));
    ("theme", ("presentation", "theme"));
    ("layout", ("presentation", "layout"));
    ("animations", ("presentation", "animations"));
    ("autoAdvance", ("presentation", "auto_advance"));
    ("prerequisitesHandling", ("advanced", "prerequisites_handling"));
    ("specializedFocus", ("advanced", "specialized_focus"));
    ("presentationStyle", ("advanced", "presentation_style")) ].

(** The properties of the literal are evaluated in order; the first read
    that throws ends the evaluation. *)
Fixpoint readSettings (settings : gmap string value)
    (table : list (string * (string * string)))
  : result (list (string * value)) :=
  match table with
  | [] => Ok []
  | (key, (section, k)) :: rest =>
      match setting settings section k with
      | Throw e => Throw e
      | Ok v =>
          match readSettings settings rest with
          | Throw e => Throw e
          | Ok l => Ok ((key, v) :: l)
          end
      end
  end.

(** [loadUserSettings], given what [settingsAPI.getSettings()] resolves
    to: [response.data], an object, or a rejection. *)
Definition loadUserSettings (response : result (gmap string value)) (s : store)
  : store :=
  match response with
  | Throw _ => s
  | Ok settings =>
      match readSettings settings settingsToConfig with
      | Ok config =>
          updateCourseConfig (list_to_map config) (setUserSettings settings s)
      | Throw _ => setUserSettings settings s
      end
  end.

End AppStore.

Import AppStore.

(** ** The home page: socket handlers and [handleStartGeneration] *)

Module HomePage.

Record summary := {
  total_slides : value;
  audio_files_count : value
}.

(** Payload of ['course_complete']. *)
Record complete_event := {
  ce_session_id : value;
  ce_course_data : option course;
  ce_summary : option summary
}.

(** Payload of ['course_error']. *)
Record error_event := {
  ee_error : value
}.

(** The terminal events of the channel. *)
Inductive terminal_event :=
| course_complete (data : complete_event)
| course_error (data : error_event).

(** The store, and the component state and effect-local variables the
    handlers below write. *)
Record page := {
  st : store;
  progressDetails : value;
  healthCheckInterval : bool;
  lastHeartbeat : Z
}.

Definition with_st (f : store -> store) (p : page) : page :=
  {| st := f (st p); progressDetails := progressDetails p;
     healthCheckInterval := healthCheckInterval p;
     lastHeartbeat := lastHeartbeat p |}.

Definition with_progressDetails (x : value) (p : page) : page :=
  {| st := st p; progressDetails := x;
     healthCheckInterval := healthCheckInterval p;
     lastHeartbeat := lastHeartbeat p |}.

Definition with_healthCheckInterval (x : bool) (p : page) : page :=
  {| st := st p; progressDetails := progressDetails p;
     healthCheckInterval := x; lastHeartbeat := lastHeartbeat p |}.

Definition with_lastHeartbeat (x : Z) (p : page) : page :=
  {| st := st p; progressDetails := progressDetails p;
     healthCheckInterval := healthCheckInterval p; lastHeartbeat := x |}.

Inductive toast_kind := success | failure.

Inductive toast_text :=
| GeneratedWithSummary (total_slides audio_files_count : value)
| Generated
| ErrorText (msg : value)
| FailedToGenerate
| EnterTopic
| ConnectionTimeout
| ServerError
| FailedToStart.

Inductive effect :=
| Toast (k : toast_kind) (t : toast_text)
| Navigate (session : value)
| SocketConnect
| SocketEmitJoin (session_id : value)
| PostGenerateCourse (courseData : gmap string value)
| SetGenerating (generating : bool).

Definition H := M page effect.

(** The store's [setGenerating], with the call recorded in the trace. *)
Definition setGenerating (b : bool) : H unit :=
  modify (with_st (AppStore.setGenerating b));; emit (SetGenerating b).

Definition stopHealthCheck : H unit :=
  modify (with_healthCheckInterval false).

(** [socket.on('course_complete', (data) => ...)]; [now] is [Date.now()]. *)
Definition on_course_complete (now : Z) (data : complete_event) : H unit :=
  modify (with_lastHeartbeat now);;
  modify (with_st (setCurrentSession (ce_session_id data)));;
  modify (with_st (setCurrentCourse (ce_course_data data)));;
  setGenerating false;;
  modify (with_progressDetails VNull);;
  stopHealthCheck;;
  match ce_summary data with
  | Some sm =>
      emit (Toast success
              (GeneratedWithSummary (total_slides sm) (audio_files_count sm)))
  | None => emit (Toast success Generated)
  end;;
  emit (Navigate (ce_session_id data)).

(** [socket.on('course_error', (data) => ...)] *)
Definition on_course_error (now : Z) (data : error_event) : H unit :=
  modify (with_lastHeartbeat now);;
  setGenerating false;;
  modify (with_progressDetails VNull);;
  stopHealthCheck;;
  emit (Toast failure
          (if truthy (ee_error data) then ErrorText (ee_error data)
           else FailedToGenerate)).

Definition on_terminal (now : Z) (e : terminal_event) : H unit :=
  match e with
  | course_complete data => on_course_complete now data
  | course_error data => on_course_error now data
  end.

(** What the outside answers to [handleStartGeneration]. *)
Inductive connect_outcome := connected | connect_error (e : error) | timed_out.

Record env := {
  socket_connected : bool;          (* [socket.connected] on entry *)
  connected_at_once : bool;         (* [socket.connected] inside the promise *)
  connecting : connect_outcome;     (* which of the three callbacks fires *)
  generate : result value           (* [response.data] of the POST *)
}.

Definition SocketTimeout : error :=
  {| err_message := "Socket connection timeout"; err_status := None |}.

(** [courseConfig.topic.trim()]: a TypeError unless [topic] is a string. *)
Definition topic_trimmed (cfg : gmap string value) : result jsstring :=
  match cfg !! "topic" with
  | Some (VStr t) => Ok (trim t)
  | _ => Throw TypeError
  end.

(** The promise awaited when the socket is not connected. *)
Definition wait_for_connection (e : env) : H unit :=
  if connected_at_once e then mret tt
  else
    match connecting e with
    | connected => mret tt
    | connect_error err => throw err
    | timed_out => throw SocketTimeout
    end.

(** [courseConfig] is the value the component rendered with. *)
Definition handleStartGeneration (courseConfig : gmap string value) (e : env)
  : H unit :=
  t ← await (topic_trimmed courseConfig);
  if negb (truthy (VStr t)) then emit (Toast failure EnterTopic)
  else
    try_catch
      (setGenerating true;;
       (if negb (socket_connected e)
        then emit SocketConnect;; wait_for_connection e
        else mret tt);;
       emit (PostGenerateCourse courseConfig);;
       data ← await (generate e);
       (* [response.data && response.data.session_id] *)
       sid ← (if truthy data then await (get_prop data "session_id")
              else mret data);
       if truthy sid
       then emit (SocketEmitJoin sid);;
            modify (with_st (setCurrentSession sid))
       else mret tt)
      (fun error =>
         setGenerating false;;
         if bool_decide (err_message error = "Socket connection timeout")
         then emit (Toast failure ConnectionTimeout)
         else if bool_decide (err_status error = Some 500)
         then emit (Toast failure ServerError)
         else emit (Toast failure FailedToStart)).

(** The Generate button: [disabled={isGenerating || !courseConfig.topic.trim()}] *)
Definition generate_disabled (s : store) : result bool :=
  if isGenerating s then Ok true
  else
    match topic_trimmed (courseConfig s) with
    | Ok t => Ok (negb (truthy (VStr t)))
    | Throw e => Throw e
    end.

End HomePage.

(** ** The presentation page: player, pause and resume, questions

    A handler is a closure of one render: the values it names from
    [useState], [useParams] and [useAppStore()] are those of the render that
    created it, the snapshot [v] below.  What it reads through
    [getCurrentSlideData()], [hasNextSlide()] and the refs is live. *)

Module PresentationPage.

Definition blob := list N.

Inductive audio_src :=
| NoSrc
| FileSrc (audioFile : value)       (* [/api/audio/file/<audioFile>] *)
| BlobSrc (b : blob).               (* [URL.createObjectURL(data)] *)

(** The [<audio>] element behind [audioRef]. *)
Record audio := {
  src : audio_src;
  currentTime : Q;
  paused : bool;
  listening : bool                  (* [onended], [ontimeupdate] installed *)
}.

(** The [Audio] object behind [aiAudioRef]. *)
Record ai_audio := {
  ai_src : blob;
  ai_volume : value
}.

Record slide_image := {
  image_url : value
}.

Record slide_context := {
  slide_number : Z;
  ctx_transcript : value;
  slide_image_url : value
}.

(** The state the handlers read and write; [loading], [audioMuted] and
    [loadingImages] are written by none of them. *)
Record page := {
  st : store;
  sessionId : jsstring;
  isRecording : bool;
  conversationSession : value;
  pausedPosition : Q;
  showResumeOptions : bool;
  slideImages : list slide_image;
  isAISpeaking : bool;
  manuallyResumed : bool;
  audioRef : option audio;
  mediaRecorderRef : bool;
  aiAudioRef : option ai_audio
}.

Definition with_st (f : store -> store) (p : page) : page :=
  {| st := f (st p); sessionId := sessionId p; isRecording := isRecording p;
     conversationSession := conversationSession p;
     pausedPosition := pausedPosition p;
     showResumeOptions := showResumeOptions p; slideImages := slideImages p;
     isAISpeaking := isAISpeaking p; manuallyResumed := manuallyResumed p;
     audioRef := audioRef p; mediaRecorderRef := mediaRecorderRef p;
     aiAudioRef := aiAudioRef p |}.

Definition with_isRecording (x : bool) (p : page) : page :=
  {| st := st p; sessionId := sessionId p; isRecording := x;
     conversationSession := conversationSession p;
     pausedPosition := pausedPosition p;
     showResumeOptions := showResumeOptions p; slideImages := slideImages p;
     isAISpeaking := isAISpeaking p; manuallyResumed := manuallyResumed p;
     audioRef := audioRef p; mediaRecorderRef := mediaRecorderRef p;
     aiAudioRef := aiAudioRef p |}.

Definition with_conversationSession (x : value) (p : page) : page :=
  {| st := st p; sessionId := sessionId p; isRecording := isRecording p;
     conversationSession := x;
     pausedPosition := pausedPosition p;
     showResumeOptions := showResumeOptions p; slideImages := slideImages p;
     isAISpeaking := isAISpeaking p; manuallyResumed := manuallyResumed p;
     audioRef := audioRef p; mediaRecorderRef := mediaRecorderRef p;
     aiAudioRef := aiAudioRef p |}.

Definition with_pausedPosition (x : Q) (p : page) : page :=
  {| st := st p; sessionId := sessionId p; isRecording := isRecording p;
     conversationSession := conversationSession p;
     pausedPosition := x;
     showResumeOptions := showResumeOptions p; slideImages := slideImages p;
     isAISpeaking := isAISpeaking p; manuallyResumed := manuallyResumed p;
     audioRef := audioRef p; mediaRecorderRef := mediaRecorderRef p;
     aiAudioRef := aiAudioRef p |}.

Definition with_showResumeOptions (x : bool) (p : page) : page :=
  {| st := st p; sessionId := sessionId p; isRecording := isRecording p;
     conversationSession := conversationSession p;
     pausedPosition := pausedPosition p;
     showResumeOptions := x; slideImages := slideImages p;
     isAISpeaking := isAISpeaking p; manuallyResumed := manuallyResumed p;
     audioRef := audioRef p; mediaRecorderRef := mediaRecorderRef p;
     aiAudioRef := aiAudioRef p |}.

Definition with_isAISpeaking (x : bool) (p : page) : page :=
  {| st := st p; sessionId := sessionId p; isRecording := isRecording p;
     conversationSession := conversationSession p;
     pausedPosition := pausedPosition p;
     showResumeOptions := showResumeOptions p; slideImages := slideImages p;
     isAISpeaking := x; manuallyResumed := manuallyResumed p;
     audioRef := audioRef p; mediaRecorderRef := mediaRecorderRef p;
     aiAudioRef := aiAudioRef p |}.

Definition with_manuallyResumed (x : bool) (p : page) : page :=
  {| st := st p; sessionId := sessionId p; isRecording := isRecording p;
     conversationSession := conversationSession p;
     pausedPosition := pausedPosition p;
     showResumeOptions := showResumeOptions p; slideImages := slideImages p;
     isAISpeaking := isAISpeaking p; manuallyResumed := x;
     audioRef := audioRef p; mediaRecorderRef := mediaRecorderRef p;
     aiAudioRef := aiAudioRef p |}.

Definition with_audioRef (x : option audio) (p : page) : page :=
  {| st := st p; sessionId := sessionId p; isRecording := isRecording p;
     conversationSession := conversationSession p;
     pausedPosition := pausedPosition p;
     showResumeOptions := showResumeOptions p; slideImages := slideImages p;
     isAISpeaking := isAISpeaking p; manuallyResumed := manuallyResumed p;
     audioRef := x; mediaRecorderRef := mediaRecorderRef p;
     aiAudioRef := aiAudioRef p |}.

Definition with_aiAudioRef (x : option ai_audio) (p : page) : page :=
  {| st := st p; sessionId := sessionId p; isRecording := isRecording p;
     conversationSession := conversationSession p;
     pausedPosition := pausedPosition p;
     showResumeOptions := showResumeOptions p; slideImages := slideImages p;
     isAISpeaking := isAISpeaking p; manuallyResumed := manuallyResumed p;
     audioRef := audioRef p; mediaRecorderRef := mediaRecorderRef p;
     aiAudioRef := x |}.

Inductive toast_kind := failure | plain.

Inductive toast_text :=
| FailedToPlay
| AudioUnavailable
| FailedToStartConversation
| FailedToEndConversation
| NoSpeech
| FailedToProcess.

Inductive effect :=
| Toast (k : toast_kind) (t : toast_text)
| AudioPause
| AudioPlay (s : audio_src) (position : Q)
| RecorderStop
| AiAudioPause
| AiAudioPlay (b : blob)
| ScheduleNextSlide
| PostConversationStart (sessionId : jsstring) (slideContext : slide_context)
| PostConversationAsk (session_id question : value)
                      (slideContext : slide_context)
| PostConversationEnd (sessionId : value)
| PostTranscribe (audioBlob : blob)
| PostGenerateAudio (slideData : slide) (voice speed : value).

(** What the outside answers: the [data] of each response, the outcome of
    each [play()], and the two readings of the clock. *)
Record env := {
  play_pregenerated : result unit;
  generate_slide_audio : result (option blob);
  play_generated : result unit;
  start_conversation : result value;
  end_conversation : result unit;
  transcribe : result value;
  ask : result value;
  now_question : jsstring;
  now_answer : jsstring;
  generate_ai_audio : result (option blob);
  play_ai : result unit
}.

Definition H := M page effect.

(** A call of a store action. *)
Definition act (f : store -> store) : H unit := modify (with_st f).

(** A read of the live state: [get()] of the store, [ref.current]. *)
Definition live {A} (f : page -> A) : H A := gets f.

(** [q > 0] *)
Definition positive (q : Q) : bool := 0 <? Qnum q.

(** [audioRef.current.src = s; audioRef.current.currentTime = pos], and the
    event listeners. *)
Definition load (el : audio) (s : audio_src) (pos : Q) : H unit :=
  modify (with_audioRef
            (Some {| src := s; currentTime := pos; paused := paused el;
                     listening := true |})).

(** [await audioRef.current.play()] *)
Definition play (answer : result unit) : H unit :=
  await answer;;
  a ← live audioRef;
  match a with
  | Some el =>
      modify (with_audioRef
                (Some {| src := src el; currentTime := currentTime el;
                         paused := false; listening := listening el |}));;
      emit (AudioPlay (src el) (currentTime el))
  | None => throw TypeError
  end.

(** [audioRef.current.onended] *)
Definition onended : H unit :=
  act (setPlaying false);;
  modify (with_pausedPosition 0%Q);;
  more ← live (fun p => hasNextSlide (st p));
  if (more : bool) then emit ScheduleNextSlide else mret tt.

(** [overridePosition !== null ? overridePosition : pausedPosition] *)
Definition startPosition (v : page) (overridePosition : option Q) : Q :=
  match overridePosition with
  | Some q => q
  | None => pausedPosition v
  end.

(** The pre-generated branch of [startSlideAudio]; the result is
    [audioLoadedSuccessfully]. *)
Definition playPregenerated (v : page) (e : env) (overridePosition : option Q)
  : H bool :=
  c ← await (match currentCourse (st v) with
             | Some c => Ok c
             | None => Throw TypeError
             end);
  match audio_files c with
  | Some files =>
      match index files (currentSlide (st v)) with
      | Some audioFile =>
          if truthy audioFile then
            a ← live audioRef;
            match a with
            | Some el =>
                try_catch
                  (load el (FileSrc audioFile) (startPosition v overridePosition);;
                   play (play_pregenerated e);;
                   act (setPlaying true);;
                   mret true)
                  (fun _ => mret false)
            | None => mret false
            end
          else mret false
      | None => mret false
      end
  | None => mret false
  end.

(** The real-time branch of [startSlideAudio]. *)
Definition playGenerated (v : page) (e : env) (slideData : slide)
    (overridePosition : option Q) : H unit :=
  try_catch
    (emit (PostGenerateAudio slideData (VStr (txt "default")) (VNum 1));;
     data ← await (generate_slide_audio e);
     a ← live audioRef;
     match a, data with
     | Some el, Some b =>
         load el (BlobSrc b) (startPosition v overridePosition);;
         play (play_generated e);;
         act (setPlaying true)
     | _, _ => mret tt
     end)
    (fun _ => emit (Toast failure AudioUnavailable)).

Definition startSlideAudio (v : page) (e : env) (overridePosition : option Q)
  : H unit :=
  try_catch
    (slideData ← live (fun p => getCurrentSlideData (st p));
     match slideData with
     | Some sd =>
         if truthy (transcript sd) then
           audioLoadedSuccessfully ← playPregenerated v e overridePosition;
           if (audioLoadedSuccessfully : bool) then mret tt
           else playGenerated v e sd overridePosition
         else mret tt
     | None => mret tt
     end)
    (fun _ => emit (Toast failure FailedToPlay)).

Definition pauseAudio : H unit :=
  a ← live audioRef;
  match a with
  | Some el =>
      emit AudioPause;;
      modify (with_audioRef
                (Some {| src := src el; currentTime := currentTime el;
                         paused := true; listening := listening el |}));;
      modify (with_pausedPosition (currentTime el));;
      act (setPlaying false)
  | None => mret tt
  end.

Definition togglePlayPause (v : page) (e : env) : H unit :=
  if isPlaying (st v) then pauseAudio else startSlideAudio v e None.

Inductive direction := next | prev.

Definition handleSlideChange (d : direction) : H unit :=
  pauseAudio;;
  modify (with_pausedPosition 0%Q);;
  act (setAudioProgress 0%Q);;
  modify (with_manuallyResumed false);;
  a ← live audioRef;
  match a with
  | Some el =>
      modify (with_audioRef
                (Some {| src := src el; currentTime := currentTime el;
                         paused := paused el; listening := false |}))
  | None => mret tt
  end;;
  match d with
  | next =>
      more ← live (fun p => hasNextSlide (st p));
      if (more : bool) then act nextSlide else mret tt
  | prev =>
      back ← live (fun p => hasPreviousSlide (st p));
      if (back : bool) then act previousSlide else mret tt
  end.

Definition getCurrentSlideImageUrl (v : page) : value :=
  match index (slideImages v) (currentSlide (st v)) with
  | Some image => image_url image
  | None => VNull
  end.

(** [slideData?.transcript || ''] *)
Definition transcriptOrEmpty (slideData : option slide) : value :=
  or_else (match slideData with
           | Some sd => transcript sd
           | None => VUndefined
           end) (VStr []).

Definition startConversation (v : page) (e : env) : H unit :=
  try_catch
    (a ← live audioRef;
     match a with
     | Some el =>
         if isPlaying (st v) then
           emit AudioPause;;
           modify (with_audioRef
                     (Some {| src := src el; currentTime := currentTime el;
                              paused := true; listening := listening el |}));;
           modify (with_pausedPosition (currentTime el));;
           act (setPlaying false)
         else mret tt
     | None => mret tt
     end;;
     slideData ← live (fun p => getCurrentSlideData (st p));
     emit (PostConversationStart (sessionId v)
             {| slide_number := currentSlide (st v) + 1;
                ctx_transcript := transcriptOrEmpty slideData;
                slide_image_url := getCurrentSlideImageUrl v |});;
     data ← await (start_conversation e);
     id ← await (get_prop data "conversation_session_id");
     modify (with_conversationSession id);;
     act (setConversationActive true))
    (fun _ => emit (Toast failure FailedToStartConversation)).

Definition stopAISpeech : H unit :=
  a ← live aiAudioRef;
  match a with
  | Some _ =>
      emit AiAudioPause;;
      modify (with_isAISpeaking false);;
      modify (with_aiAudioRef None)
  | None => mret tt
  end.

Definition endConversation (v : page) (e : env) : H unit :=
  try_catch
    ((if isRecording v then
        r ← live mediaRecorderRef;
        if (r : bool) then emit RecorderStop;; modify (with_isRecording false)
        else mret tt
      else mret tt);;
     stopAISpeech;;
     (if truthy (conversationSession v) then
        emit (PostConversationEnd (conversationSession v));;
        await (end_conversation e)
      else mret tt);;
     act (setConversationActive false);;
     modify (with_conversationSession VNull);;
     if positive (pausedPosition v) then modify (with_showResumeOptions true)
     else mret tt)
    (fun _ => emit (Toast failure FailedToEndConversation)).

(** [userSettings.tts.<k>] *)
Definition ttsSetting (v : page) (k : string) : result value :=
  match userSettings (st v) !! "tts" with
  | Some tts => get_prop tts k
  | None => Throw TypeError
  end.

Definition speakAIResponse (v : page) (e : env) (responseText : value)
  : H unit :=
  try_catch
    (stopAISpeech;;
     modify (with_isAISpeaking true);;
     voice ← await (ttsSetting v "voice");
     speed ← await (ttsSetting v "speed");
     emit (PostGenerateAudio
             {| slide_title := VStr (txt "AI Response");
                transcript := responseText |} voice speed);;
     data ← await (generate_ai_audio e);
     match data with
     | Some b =>
         modify (with_aiAudioRef (Some {| ai_src := b; ai_volume := VNum 1 |}));;
         volume ← await (ttsSetting v "volume");
         modify (with_aiAudioRef (Some {| ai_src := b; ai_volume := volume |}));;
         await (play_ai e);;
         emit (AiAudioPlay b)
     | None => modify (with_isAISpeaking false)
     end)
    (fun _ => modify (with_isAISpeaking false)).

(** [data.transcription || data.text || data] when [data] is truthy, ['']
    otherwise. *)
Definition transcriptionText (data : value) : result value :=
  if truthy data then
    match get_prop data "transcription", get_prop data "text" with
    | Ok a, Ok b => Ok (or_else (or_else a b) data)
    | Throw err, _ | _, Throw err => Throw err
    end
  else Ok (VStr []).

(** [transcriptionText && transcriptionText.trim()] as a condition: calling
    [trim] on a truthy value that is not a string is a TypeError. *)
Definition spoken (text : value) : result bool :=
  match text with
  | VStr s => Ok (truthy text && truthy (VStr (trim s)))
  | _ => if truthy text then Throw TypeError else Ok false
  end.

Definition processRecording (v : page) (e : env) (audioBlob : blob) : H unit :=
  try_catch
    (emit (PostTranscribe audioBlob);;
     data ← await (transcribe e);
     text ← await (transcriptionText data);
     heard ← await (spoken text);
     if (heard : bool) then
       act (addConversationMessage
              {| role := "user"; content := text;
                 timestamp := now_question e |});;
       slideData ← live (fun p => getCurrentSlideData (st p));
       emit (PostConversationAsk (conversationSession v) text
               {| slide_number := currentSlide (st v) + 1;
                  ctx_transcript := transcriptOrEmpty slideData;
                  slide_image_url := getCurrentSlideImageUrl v |});;
       answer ← await (ask e);
       r ← await (get_prop answer "response");
       aiResponseText ← (if truthy r then mret r
                          else await (get_prop answer "answer"));
       act (addConversationMessage
              {| role := "teacher"; content := aiResponseText;
                 timestamp := now_answer e |});;
       speakAIResponse v e aiResponseText
     else emit (Toast plain NoSpeech))
    (fun _ => emit (Toast failure FailedToProcess)).

Definition resumeAudio (v : page) (e : env) (fromBeginning : bool) : H unit :=
  modify (with_showResumeOptions false);;
  modify (with_manuallyResumed true);;
  if fromBeginning then
    modify (with_pausedPosition 0%Q);;
    startSlideAudio v e (Some 0%Q)
  else startSlideAudio v e None.

(** The condition of the effect that starts the narration one second after a
    render: [currentCourse && !isConversationActive && !showResumeOptions &&
    !manuallyResumed]. *)
Definition autoStart (v : page) : bool :=
  match currentCourse (st v) with
  | Some _ =>
      negb (isConversationActive (st v))
      && negb (showResumeOptions v) && negb (manuallyResumed v)
  | None => false
  end.

End PresentationPage.

(** ** The API client: [frontend/src/api/client.js] *)

Module Client.

(** [v?.k] *)
Definition opt_prop (v : value) (k : string) : value :=
  match v with
  | VObj fields => default VUndefined (fields !! k)
  | _ => VUndefined
  end.

(** A parameter declared with a default, [(x = dflt) => ...]: an argument
    that is [undefined], which is also what a left-out argument is, gives the
    default; every other value, [null] included, is kept. *)
Definition defaulted (arg dflt : value) : value :=
  match arg with
  | VUndefined => dflt
  | _ => arg
  end.

(** [handleAPIError(error, defaultMessage = 'An error occurred')];
    [error.response] and [error.message] are plain property reads, a TypeError
    on [undefined] and [null]. *)
Definition handleAPIError (error defaultMessage : value) : result value :=
  let defaultMessage := defaulted defaultMessage (VStr (txt "An error occurred")) in
  match get_prop error "response" with
  | Throw e => Throw e
  | Ok response =>
      if truthy (opt_prop (opt_prop response "data") "error")
      then Ok (opt_prop (opt_prop response "data") "error")
      else if truthy (opt_prop (opt_prop response "data") "message")
      then Ok (opt_prop (opt_prop response "data") "message")
      else
        match get_prop error "message" with
        | Throw e => Throw e
        | Ok m => if truthy m then Ok m else Ok defaultMessage
        end
  end.

(** [!error.response && error.request] *)
Definition isNetworkError (error : value) : result value :=
  match get_prop error "response" with
  | Throw e => Throw e
  | Ok response =>
      if truthy response then Ok (VBool false) else get_prop error "request"
  end.

(** [hay.startsWith(needle)], code unit by code unit. *)
Fixpoint startsWith (needle hay : jsstring) : bool :=
  match needle, hay with
  | [], _ => true
  | _ :: _, [] => false
  | n :: ns, h :: hs => (n =? h)%N && startsWith ns hs
  end.

(** [hay.includes(needle)] on strings. *)
Fixpoint includes (hay needle : jsstring) : bool :=
  startsWith needle hay
  || match hay with
     | [] => false
     | _ :: rest => includes rest needle
     end.

(** [error.code === 'ECONNABORTED' || error.message.includes('timeout')]:
    [includes] is a method of strings and of arrays only. *)
Definition isTimeoutError (error : value) : result bool :=
  match get_prop error "code" with
  | Throw e => Throw e
  | Ok code =>
      if match code with
         | VStr c => bool_decide (c = txt "ECONNABORTED")
         | _ => false
         end
      then Ok true
      else
        match get_prop error "message" with
        | Throw e => Throw e
        | Ok (VStr m) => Ok (includes m (txt "timeout"))
        | Ok (VArr items) => Ok (includesText items (txt "timeout"))
        | Ok _ => Throw TypeError
        end
  end.

(** The module variable [socket] and the sockets [io()] has made: a socket
    is known by its rank of creation. *)
Record sockets := {
  socket : option nat;
  made : nat
}.

Inductive socket_effect :=
| Io (id : nat)                     (* [io(backendUrl, ...)] *)
| Disconnect (id : nat).            (* [socket.disconnect()] *)

Definition SocketM := M sockets socket_effect.

Definition initializeSocket : SocketM nat :=
  cur ← gets socket;
  match cur with
  | Some id => mret id
  | None =>
      id ← gets made;
      emit (Io id);;
      modify (fun _ => {| socket := Some id; made := S id |});;
      mret id
  end.

Definition getSocket : SocketM nat :=
  cur ← gets socket;
  match cur with
  | None => initializeSocket
  | Some id => mret id
  end.

Definition disconnectSocket : SocketM unit :=
  cur ← gets socket;
  match cur with
  | Some id =>
      emit (Disconnect id);;
      modify (fun w => {| socket := None; made := made w |})
  | None => mret tt
  end.

(** A call of one of the three exports. *)
Inductive socket_call := CallInitialize | CallGet | CallDisconnect.

Definition call (c : socket_call) : SocketM unit :=
  match c with
  | CallInitialize => initializeSocket;; mret tt
  | CallGet => getSocket;; mret tt
  | CallDisconnect => disconnectSocket
  end.

Fixpoint calls (cs : list socket_call) : SocketM unit :=
  match cs with
  | [] => mret tt
  | c :: rest => call c;; calls rest
  end.

End Client.

(** ** The real-time channel: every handler the home page registers *)

Module Channel.
Import HomePage.

(** ['connected'], ['disconnected'], ['error'] *)
Inductive connection := Connected | Disconnected | Failed.

(** The state of [HomePage] the handlers write: what [HomePage.page] holds,
    and the rest of the component state. *)
Record view := {
  base : page;
  currentStepShown : value;           (* the component's own [currentStep] *)
  estimatedTime : value;
  connectionStatus : connection;
  enhancedProgress : value;
  processingStats : value
}.

Definition with_base (f : page -> page) (w : view) : view :=
  {| base := f (base w); currentStepShown := currentStepShown w;
     estimatedTime := estimatedTime w; connectionStatus := connectionStatus w;
     enhancedProgress := enhancedProgress w;
     processingStats := processingStats w |}.

Definition with_currentStepShown (x : value) (w : view) : view :=
  {| base := base w; currentStepShown := x;
     estimatedTime := estimatedTime w; connectionStatus := connectionStatus w;
     enhancedProgress := enhancedProgress w;
     processingStats := processingStats w |}.

Definition with_estimatedTime (x : value) (w : view) : view :=
  {| base := base w; currentStepShown := currentStepShown w;
     estimatedTime := x; connectionStatus := connectionStatus w;
     enhancedProgress := enhancedProgress w;
     processingStats := processingStats w |}.

Definition with_connectionStatus (x : connection) (w : view) : view :=
  {| base := base w; currentStepShown := currentStepShown w;
     estimatedTime := estimatedTime w; connectionStatus := x;
     enhancedProgress := enhancedProgress w;
     processingStats := processingStats w |}.

Definition with_enhancedProgress (x : value) (w : view) : view :=
  {| base := base w; currentStepShown := currentStepShown w;
     estimatedTime := estimatedTime w; connectionStatus := connectionStatus w;
     enhancedProgress := x;
     processingStats := processingStats w |}.

Definition with_processingStats (x : value) (w : view) : view :=
  {| base := base w; currentStepShown := currentStepShown w;
     estimatedTime := estimatedTime w; connectionStatus := connectionStatus w;
     enhancedProgress := enhancedProgress w;
     processingStats := x |}.

Definition initialView : view :=
  {| base := {| st := initial; progressDetails := VNull;
                healthCheckInterval := false; lastHeartbeat := 0 |};
     currentStepShown := VStr []; estimatedTime := VNull;
     connectionStatus := Disconnected; enhancedProgress := VNull;
     processingStats := VNull |}.

Definition C := M view effect.

(** A handler of [HomePage], run on the part of the state it knows. *)
Definition onBase {A} (m : H A) : C A :=
  fun w =>
    match m (base w.1, w.2) with
    | (r, (b, tr)) => (r, (with_base (fun _ => b) w.1, tr))
    end.

Definition beat (now : Z) : C unit :=
  modify (with_base (with_lastHeartbeat now)).

Definition startHealthCheck : C unit :=
  modify (with_base (with_healthCheckInterval true)).

(** [data.k] of a payload, which is an object. *)
Definition field (data : gmap string value) (k : string) : value :=
  default VUndefined (data !! k).

(** [socket.on('course_progress', (data) => ...)] *)
Definition on_course_progress (now : Z) (data : gmap string value) : C unit :=
  beat now;;
  modify (with_base (with_st (setProgress (field data "progress")
                                          (field data "step"))));;
  modify (with_currentStepShown (field data "step"));;
  modify (with_estimatedTime (field data "estimated_time"));;
  (if truthy (field data "details") || truthy (field data "current_slide")
      || truthy (field data "current_image")
   then modify (with_base (with_progressDetails
          (VObj (list_to_map
             [ ("stage", field data "stage");
               ("details", field data "details");
               ("current_slide", field data "current_slide");
               ("total_slides", field data "total_slides");
               ("current_image", field data "current_image");
               ("total_images", field data "total_images");
               ("topics_count", field data "topics_count");
               ("timestamp", field data "timestamp") ]))))
   else mret tt);;
  if truthy (field data "statistics")
  then modify (with_processingStats (field data "statistics"))
  else mret tt.

(** [socket.on('enhanced_progress', (data) => ...)] *)
Definition on_enhanced_progress (now : Z) (data : gmap string value) : C unit :=
  beat now;;
  modify (with_enhancedProgress (VObj data));;
  modify (with_base (with_st
            (setProgress (field data "overall_progress")
               (Client.opt_prop (field data "current_stage") "name"))));;
  modify (with_currentStepShown
            (Client.opt_prop (field data "current_stage") "name"));;
  if truthy (Client.opt_prop (field data "timing") "estimated_remaining")
  then modify (with_estimatedTime
                 (Client.opt_prop (field data "timing") "estimated_remaining"))
  else mret tt.

(** The events the effect subscribes to. *)
Inductive event :=
| EvConnect
| EvDisconnect
| EvConnectError
| EvReconnect
| EvReconnectError
| EvReconnectFailed
| EvCourseProgress (data : gmap string value)
| EvEnhancedProgress (data : gmap string value)
| EvTerminal (e : terminal_event)
| EvConnected
| EvSessionJoined
| EvHeartbeat.

(** The handler registered for an event; [now] is [Date.now()]. *)
Definition receive (now : Z) (ev : event) : C unit :=
  match ev with
  | EvConnect | EvReconnect =>
      modify (with_connectionStatus Connected);; beat now;; startHealthCheck
  | EvDisconnect =>
      modify (with_connectionStatus Disconnected);; onBase stopHealthCheck
  | EvConnectError =>
      modify (with_connectionStatus Failed);; onBase stopHealthCheck
  | EvReconnectError => mret tt
  | EvReconnectFailed => modify (with_connectionStatus Failed)
  | EvCourseProgress data => on_course_progress now data
  | EvEnhancedProgress data => on_enhanced_progress now data
  | EvTerminal e => onBase (on_terminal now e)
  | EvConnected | EvSessionJoined | EvHeartbeat => beat now
  end.

(** The events of a run of the channel, each with the time it arrives. *)
Fixpoint receiveAll (evs : list (Z * event)) : C unit :=
  match evs with
  | [] => mret tt
  | (now, ev) :: rest => receive now ev;; receiveAll rest
  end.

Definition isTerminal (ev : event) : bool :=
  match ev with
  | EvTerminal _ => true
  | _ => false
  end.

End Channel.

(** ** The library page *)

Module LibraryPage.

Definition blob := list N.

Record page := {
  st : store;
  loading : bool
}.

Definition with_st (f : store -> store) (p : page) : page :=
  {| st := f (st p); loading := loading p |}.

Definition with_loading (x : bool) (p : page) : page :=
  {| st := st p; loading := x |}.

Inductive toast_kind := success | failure.

Inductive toast_text :=
| FailedToLoad
| CourseDeleted
| FailedToDelete
| CourseExported
| FailedToExport
| CourseImported
| FailedToImport.

Inductive effect :=
| Confirm
| Toast (k : toast_kind) (t : toast_text)
| GetCourses (sort_by : value)
| DeleteCourse (sessionId : jsstring)
| GetExport (sessionId : jsstring)
| Download (data : blob) (filename : jsstring)
| PostImport (file : blob).

Record env := {
  confirmed : bool;                   (* the answer to [confirm(...)] *)
  list_courses : result (list course);
  delete_course : result unit;
  export_course : result blob;
  import_course : result unit
}.

Definition L := M page effect.

(** [sortBy] is the value the component rendered with. *)
Definition loadCourses (sortBy : value) (e : env) : L unit :=
  modify (with_loading true);;
  try_catch
    (emit (GetCourses sortBy);;
     data ← await (list_courses e);
     modify (with_st (setCourses data)))
    (fun _ => emit (Toast failure FailedToLoad));;
  modify (with_loading false).

Definition handleDeleteCourse (sessionId : jsstring) (e : env) : L unit :=
  emit Confirm;;
  if negb (confirmed e) then mret tt
  else
    try_catch
      (emit (DeleteCourse sessionId);;
       await (delete_course e);;
       modify (with_st (removeCourse sessionId));;
       emit (Toast success CourseDeleted))
      (fun _ => emit (Toast failure FailedToDelete)).

(** [[a-zA-Z0-9]] *)
Definition alphanumeric (c : N) : bool :=
  (((48 <=? c) && (c <=? 57)) || ((65 <=? c) && (c <=? 90))
   || ((97 <=? c) && (c <=? 122)))%N.

(** [title.replace(/[^a-zA-Z0-9]/g, '_')]: without the [u] flag the pattern
    is matched against each code unit. *)
Definition sanitize (title : jsstring) : jsstring :=
  map (fun c => if alphanumeric c then c else 95%N) title.

Definition exportFilename (title : jsstring) : jsstring :=
  sanitize title ++ txt ".zip".

Definition handleExportCourse (sessionId : jsstring) (courseTitle : value)
    (e : env) : L unit :=
  try_catch
    (emit (GetExport sessionId);;
     data ← await (export_course e);
     title ← await (match courseTitle with
                    | VStr t => Ok t
                    | _ => Throw TypeError
                    end);
     emit (Download data (exportFilename title));;
     emit (Toast success CourseExported))
    (fun _ => emit (Toast failure FailedToExport)).

Definition handleImportCourse (sortBy : value) (file : blob) (e : env)
  : L unit :=
  try_catch
    (emit (PostImport file);;
     await (import_course e);;
     loadCourses sortBy e;;
     emit (Toast success CourseImported))
    (fun _ => emit (Toast failure FailedToImport)).

End LibraryPage.

(** ** The settings dialog *)

Module SettingsModal.

Record modal := {
  st : store;
  localSettings : gmap string value;
  isSaving : bool
}.

Definition with_st (f : store -> store) (m : modal) : modal :=
  {| st := f (st m); localSettings := localSettings m; isSaving := isSaving m |}.

Definition with_isSaving (x : bool) (m : modal) : modal :=
  {| st := st m; localSettings := localSettings m; isSaving := x |}.

Inductive effect :=
| PostSettings (settings : gmap string value)
| ToastSaved
| ToastFailedToSave
| Close.

Definition D := M modal effect.

(** The store's [saveUserSettings]: [get()] is read when it is called, and
    the [catch] block only logs. *)
Definition saveUserSettings (save : result unit) : D unit :=
  state ← gets st;
  try_catch
    (emit (PostSettings (userSettings state));;
     await save)
    (fun _ => mret tt).

(** [handleSave], a closure of the render [v]; [save] is what the request
    resolves to. *)
Definition handleSave (v : modal) (save : result unit) : D unit :=
  try_catch
    (modify (with_isSaving true);;
     modify (with_st (updateUserSettings (localSettings v)));;
     saveUserSettings save;;
     emit ToastSaved;;
     emit Close)
    (fun _ => emit ToastFailedToSave);;
  modify (with_isSaving false).

(** *** [updateSetting], on a heap

    The settings are objects of objects, and [updateSetting] copies the
    outer one only: what a property holds is a primitive or a reference. *)

Inductive atom :=
| AUndefined
| ANull
| ABool (b : bool)
| ANum (q : Q)
| AStr (s : jsstring).

Inductive cell :=
| Prim (a : atom)
| Ref (l : positive).

Abbreviation heap := (gmap positive (gmap string cell)).

(** [path.split('.')] *)
Fixpoint splitDots (path : string) : list string :=
  match path with
  | EmptyString => [EmptyString]
  | String c rest =>
      if Ascii.eqb c (Ascii.ascii_of_nat 46) then EmptyString :: splitDots rest
      else
        match splitDots rest with
        | k :: ks => String c k :: ks
        | [] => [String c EmptyString]
        end
  end.

(** [current[k]] *)
Definition read (h : heap) (current : cell) (k : string) : result cell :=
  match current with
  | Ref l => Ok (default (Prim AUndefined) (default ∅ (h !! l) !! k))
  | Prim AUndefined | Prim ANull => Throw TypeError
  | Prim _ => Ok (Prim AUndefined)
  end.

(** [current[k] = x], in a module (strict mode): a TypeError on every
    primitive. *)
Definition write (h : heap) (current : cell) (k : string) (x : cell)
  : result heap :=
  match current with
  | Ref l => Ok (<[l := <[k := x]> (default ∅ (h !! l))]> h)
  | Prim _ => Throw TypeError
  end.

(** The loop over [keys] and the assignment after it; for no key at all
    [keys[keys.length - 1]] is [undefined]. *)
Fixpoint assignAt (h : heap) (current : cell) (keys : list string) (x : cell)
  : result heap :=
  match keys with
  | [] => write h current "undefined" x
  | [k] => write h current k x
  | k :: rest =>
      match read h current k with
      | Ok next => assignAt h next rest x
      | Throw e => Throw e
      end
  end.

(** The updater [updateSetting(path, value)] hands to [setLocalSettings],
    run on the previous settings [prev]: the new settings, or what it throws,
    and the heap it leaves. *)
Definition updateSetting (path : string) (x : atom) (prev : positive) (h : heap)
  : result positive * heap :=
  let newSettings := fresh (dom h) in
  let copied := <[newSettings := default ∅ (h !! prev)]> h in
  match assignAt copied (Ref newSettings) (splitDots path) (Prim x) with
  | Ok h' => (Ok newSettings, h')
  | Throw e => (Throw e, copied)
  end.

(** [root.a.b...]: the cell at the end of a path of property reads. *)
Fixpoint lookupPath (h : heap) (current : cell) (keys : list string)
  : result cell :=
  match keys with
  | [] => Ok current
  | k :: rest =>
      match read h current k with
      | Ok next => lookupPath h next rest
      | Throw e => Throw e
      end
  end.

End SettingsModal.

(** * Notions of the properties, and sample inputs *)

(** The index of the last slide of the loaded deck, 0 when no course or no
    slide is loaded: the bound the slide sequencer is asked to respect. *)
Definition lastSlideIndex (s : store) : Z :=
  match currentCourse s with
  | Some {| slides_content := Some l |} => Z.max (Z.of_nat (length l) - 1) 0
  | _ => 0
  end.

(** Two stores that differ at most in [courseConfig], in [userSettings]. *)
Definition same_but_courseConfig (s s' : store) : Prop :=
  s' = with_courseConfig (courseConfig s') s.

Definition same_but_userSettings (s s' : store) : Prop :=
  s' = with_userSettings (userSettings s') s.

(** [{ ...old, ...u }] read property by property. *)
Definition merged (old u : gmap string value) (k : string) : option value :=
  match u !! k with
  | Some v => Some v
  | None => old !! k
  end.

(** A deck of three slides, and a deck without any. *)
Definition slide_of (t : string) : slide :=
  {| slide_title := VStr (txt "Slide"); transcript := VStr (txt t) |}.

Definition deck3 : course :=
  {| session_id := txt "s-1"; course_title := VStr (txt "Graphs");
     slides_content := Some [slide_of "one"; slide_of "two"; slide_of "three"];
     audio_files := Some [VStr (txt "1.wav"); VStr (txt "2.wav")] |}.

Definition deck0 : course :=
  {| session_id := txt "s-0"; course_title := VStr (txt "Empty");
     slides_content := Some []; audio_files := None |}.

Definition untitled (sid : string) : course :=
  {| session_id := txt sid; course_title := VNull;
     slides_content := None; audio_files := None |}.

(** A home page on which [topic] was typed in, and a server that cannot be
    reached. *)
Definition asking (topic : string) : HomePage.page :=
  {| HomePage.st := updateCourseConfig {[ "topic" := VStr (txt topic) ]} initial;
     HomePage.progressDetails := VNull;
     HomePage.healthCheckInterval := false;
     HomePage.lastHeartbeat := 0 |}.

Definition offline : HomePage.env :=
  {| HomePage.socket_connected := false;
     HomePage.connected_at_once := false;
     HomePage.connecting := HomePage.timed_out;
     HomePage.generate := Ok (VObj {[ "session_id" := VStr (txt "s-1") ]}) |}.

Definition online : HomePage.env :=
  {| HomePage.socket_connected := true;
     HomePage.connected_at_once := true;
     HomePage.connecting := HomePage.connected;
     HomePage.generate := Ok (VObj {[ "session_id" := VStr (txt "s-1") ]}) |}.

(** The socket is connected when the request is due: it was, or the
    connection attempt succeeds. *)
Definition reaches_server (e : HomePage.env) : Prop :=
  HomePage.socket_connected e = true
  ∨ HomePage.connected_at_once e = true
  ∨ HomePage.connecting e = HomePage.connected.




(** [answer.response || answer.answer] of an answer that is an object. *)
Definition answerOf (answer : value) : value :=
  match answer with
  | VObj fields =>
      or_else (default VUndefined (fields !! "response"))
              (default VUndefined (fields !! "answer"))
  | _ => VUndefined
  end.

(** The request that ends the conversation, when there is one, succeeds. *)
Definition ends_cleanly (v : PresentationPage.page) (e : PresentationPage.env)
  : Prop :=
  truthy (PresentationPage.conversationSession v) = true →
  PresentationPage.end_conversation e = Ok tt.

(** A player on the second slide of [deck3], paused at 2.5 s, with a
    conversation open; and an outside that answers every call. *)
Definition watching : PresentationPage.page :=
  {| PresentationPage.st :=
       setCurrentSlide 1 (setCurrentCourse (Some deck3) initial);
     PresentationPage.sessionId := txt "s-1";
     PresentationPage.isRecording := false;
     PresentationPage.conversationSession := VStr (txt "c-1");
     PresentationPage.pausedPosition := 5 # 2;
     PresentationPage.showResumeOptions := false;
     PresentationPage.slideImages :=
       [ {| PresentationPage.image_url := VStr (txt "/slides/1.png") |};
         {| PresentationPage.image_url := VStr (txt "/slides/2.png") |} ];
     PresentationPage.isAISpeaking := false;
     PresentationPage.manuallyResumed := false;
     PresentationPage.audioRef :=
       Some {| PresentationPage.src := PresentationPage.NoSrc;
               PresentationPage.currentTime := 7 # 2;
               PresentationPage.paused := false;
               PresentationPage.listening := true |};
     PresentationPage.mediaRecorderRef := false;
     PresentationPage.aiAudioRef := None |}.

Definition answering : PresentationPage.env :=
  {| PresentationPage.play_pregenerated := Ok tt;
     PresentationPage.generate_slide_audio := Ok (Some [82; 73; 70; 70]%N);
     PresentationPage.play_generated := Ok tt;
     PresentationPage.start_conversation :=
       Ok (VObj {[ "conversation_session_id" := VStr (txt "c-2") ]});
     PresentationPage.end_conversation := Ok tt;
     PresentationPage.transcribe :=
       Ok (VObj {[ "transcription" := VStr (txt "why a tree?") ]});
     PresentationPage.ask :=
       Ok (VObj {[ "response" := VStr (txt "it has no cycle") ]});
     PresentationPage.now_question := txt "2025-01-01T10:00:00.000Z";
     PresentationPage.now_answer := txt "2025-01-01T10:00:02.000Z";
     PresentationPage.generate_ai_audio := Ok (Some [82; 73; 70; 70]%N);
     PresentationPage.play_ai := Ok tt |}.

(** The same outside, except that ending the conversation fails. *)
Definition failing_to_end : PresentationPage.env :=
  {| PresentationPage.play_pregenerated := Ok tt;
     PresentationPage.generate_slide_audio := Ok (Some [82; 73; 70; 70]%N);
     PresentationPage.play_generated := Ok tt;
     PresentationPage.start_conversation :=
       Ok (VObj {[ "conversation_session_id" := VStr (txt "c-2") ]});
     PresentationPage.end_conversation :=
       Throw {| err_message := "Network Error"; err_status := None |};
     PresentationPage.transcribe :=
       Ok (VObj {[ "transcription" := VStr (txt "why a tree?") ]});
     PresentationPage.ask :=
       Ok (VObj {[ "response" := VStr (txt "it has no cycle") ]});
     PresentationPage.now_question := txt "2025-01-01T10:00:00.000Z";
     PresentationPage.now_answer := txt "2025-01-01T10:00:02.000Z";
     PresentationPage.generate_ai_audio := Ok (Some [82; 73; 70; 70]%N);
     PresentationPage.play_ai := Ok tt |}.

(** The sections of the settings that [loadUserSettings] reads. *)
Definition settingsSections : list string :=
  ["course_defaults"; "tts"; "presentation"; "advanced"].

(** What an entry of [settingsToConfig] reads when every section is there:
    the configuration key with [settings.<section>?.<k>]. *)
Definition readEntry (settings : gmap string value)
    (entry : string * (string * string)) : string * value :=
  (entry.1,
   Client.opt_prop (default VUndefined (settings !! entry.2.1)) entry.2.2).

(** [v] is neither [undefined] nor [null]. *)
Definition defined (v : value) : Prop := v ≠ VUndefined ∧ v ≠ VNull.

(** The socket the module variable [socket] holds, as a list. *)
Definition heldSocket (w : Client.sockets) : list nat :=
  match Client.socket w with
  | Some id => [id]
  | None => []
  end.

(** The sockets made and not yet disconnected, oldest first: [io()] adds
    one, [disconnect()] takes it away. *)
Definition liveStep (live : list nat) (eff : Client.socket_effect) : list nat :=
  match eff with
  | Client.Io id => live ++ [id]
  | Client.Disconnect id => filter (fun x => x ≠ id) live
  end.

Definition liveSockets (tr : list Client.socket_effect) : list nat :=
  fold_left liveStep tr [].

(** The module as it is loaded: no socket yet. *)
Definition noSocket : Client.sockets :=
  {| Client.socket := None; Client.made := 0 |}.

(** [response.data && response.data.session_id] *)
Definition responseSession (data : value) : value :=
  if truthy data then Client.opt_prop data "session_id" else data.

(** The toast of the [catch] block of [handleStartGeneration]. *)
Definition failureToast (err : error) : HomePage.toast_text :=
  if bool_decide (err_message err = "Socket connection timeout")
  then HomePage.ConnectionTimeout
  else if bool_decide (err_status err = Some 500)
       then HomePage.ServerError else HomePage.FailedToStart.

Definition isToast (eff : HomePage.effect) : bool :=
  match eff with
  | HomePage.Toast _ _ => true
  | _ => false
  end.

(** A server that answers the request with status 500. *)
Definition failing500 : HomePage.env :=
  {| HomePage.socket_connected := true;
     HomePage.connected_at_once := true;
     HomePage.connecting := HomePage.connected;
     HomePage.generate :=
       Throw {| err_message := "Request failed with status code 500";
                err_status := Some 500 |} |}.

(** A library page showing two courses. *)
Definition browsing : LibraryPage.page :=
  {| LibraryPage.st := setCourses [untitled "a"; untitled "b"] initial;
     LibraryPage.loading := false |}.

(** The user confirms and every request succeeds. *)
Definition agreeing : LibraryPage.env :=
  {| LibraryPage.confirmed := true;
     LibraryPage.list_courses := Ok [untitled "b"];
     LibraryPage.delete_course := Ok tt;
     LibraryPage.export_course := Ok [80; 75]%N;
     LibraryPage.import_course := Ok tt |}.

(** The characters a sanitised title is made of. *)
Definition safeChar (c : N) : Prop :=
  LibraryPage.alphanumeric c = true ∨ c = 95%N.

(** Settings on a heap: object 1 is the settings, object 2 its [tts]. *)
Definition settingsHeap : gmap positive (gmap string SettingsModal.cell) :=
  {[ 1%positive := {[ "tts" := SettingsModal.Ref 2;
                      "name" := SettingsModal.Prim (SettingsModal.AStr (txt "me")) ]};
     2%positive := {[ "voice" :=
                        SettingsModal.Prim (SettingsModal.AStr (txt "default")) ]} ]}.

(** The slide number is on a slide of the deck (on 0 without slides). *)
Definition inDeck (s : store) : Prop := 0 ≤ currentSlide s ≤ lastSlideIndex s.

(** Clicks on the two slide buttons, in a row. *)
Fixpoint slideChanges (ds : list PresentationPage.direction)
  : PresentationPage.H unit :=
  match ds with
  | [] => mret tt
  | d :: rest => PresentationPage.handleSlideChange d;; slideChanges rest
  end.

Definition isPlay (eff : PresentationPage.effect) : bool :=
  match eff with
  | PresentationPage.AudioPlay _ _ => true
  | _ => false
  end.

(** A player on a course without slides. *)
Definition emptyDeckPage : PresentationPage.page :=
  {| PresentationPage.st := setCurrentCourse (Some deck0) initial;
     PresentationPage.sessionId := txt "s-0";
     PresentationPage.isRecording := false;
     PresentationPage.conversationSession := VNull;
     PresentationPage.pausedPosition := 0%Q;
     PresentationPage.showResumeOptions := false;
     PresentationPage.slideImages := [];
     PresentationPage.isAISpeaking := false;
     PresentationPage.manuallyResumed := false;
     PresentationPage.audioRef := None;
     PresentationPage.mediaRecorderRef := false;
     PresentationPage.aiAudioRef := None |}.

(** A template of theory and practice, with a prerequisite. *)
Definition mixedTemplate : template :=
  {| tpl_complexity := VStr (txt "advanced");
     tpl_duration := VStr (txt "90 minutes");
     tpl_prerequisites := [VStr (txt "algebra")];
     tpl_focus_areas := [VStr (txt "practical"); VStr (txt "theoretical")] |}.

(** A home page in the middle of a generation. *)
Definition generatingView : Channel.view :=
  Channel.with_base (HomePage.with_st (setGenerating true)) Channel.initialView.

(** An outside that hears the question, but where the AI does not answer. *)
Definition not_answering : PresentationPage.env :=
  {| PresentationPage.play_pregenerated := Ok tt;
     PresentationPage.generate_slide_audio := Ok (Some [82; 73; 70; 70]%N);
     PresentationPage.play_generated := Ok tt;
     PresentationPage.start_conversation :=
       Ok (VObj {[ "conversation_session_id" := VStr (txt "c-2") ]});
     PresentationPage.end_conversation := Ok tt;
     PresentationPage.transcribe :=
       Ok (VObj {[ "transcription" := VStr (txt "why a tree?") ]});
     PresentationPage.ask :=
       Throw {| err_message := "Network Error"; err_status := None |};
     PresentationPage.now_question := txt "2025-01-01T10:00:00.000Z";
     PresentationPage.now_answer := txt "2025-01-01T10:00:02.000Z";
     PresentationPage.generate_ai_audio := Ok (Some [82; 73; 70; 70]%N);
     PresentationPage.play_ai := Ok tt |}.


(** [watching], while the narration plays. *)
Definition playingPage : PresentationPage.page :=
  PresentationPage.with_st (setPlaying true) watching.

(** * Properties *)

#[local] Arguments truthy : simpl never.
#[local] Arguments get_prop : simpl never.

(** Unfold the operations of a handler down to the pair it returns. *)
Ltac steps :=
  unfold try_catch, mbind, M_bind, bind, mret, M_ret, ret, await, throw,
    emit, modify, gets in *;
  simpl.

(** Split on the tests of a [catch] block. *)
Ltac split_tests :=
  repeat match goal with
         | |- context [bool_decide ?P] => destruct (bool_decide P)
         | |- context [if truthy ?v then _ else _] => destruct (truthy v) eqn:?
         end.

(** ** Text *)

Section Text.

Lemma blank_cons c s : blank (c :: s) ↔ is_space c = true ∧ blank s.
Proof. unfold blank. by rewrite Forall_cons. Qed.

Lemma trimStart_blank s : blank (trimStart s) ↔ blank s.
Proof.
  induction s as [|c r IH]; simpl; [done|].
  destruct (is_space c) eqn:Hc.
  - rewrite IH, blank_cons. tauto.
  - done.
Qed.

Lemma trimStart_nil s : trimStart s = [] ↔ blank s.
Proof.
  induction s as [|c r IH]; simpl.
  - split; [constructor | done].
  - destruct (is_space c) eqn:Hc; rewrite blank_cons.
    + rewrite IH. tauto.
    + split; [done | intros [? _]; congruence].
Qed.

(** [trim] leaves nothing exactly of the texts that are empty or made of
    white space only. *)
Lemma trim_nil s : trim s = [] ↔ blank s.
Proof.
  unfold trim, trimEnd.
  transitivity (trimStart (reverse (trimStart s)) = []).
  { split; intros Hr.
    - apply (f_equal reverse) in Hr. by rewrite reverse_involutive in Hr.
    - by rewrite Hr. }
  rewrite trimStart_nil. unfold blank at 1.
  rewrite Forall_reverse. apply trimStart_blank.
Qed.

Lemma truthy_trim s : truthy (VStr (trim s)) = false ↔ blank s.
Proof. rewrite <- trim_nil. unfold truthy. by destruct (trim s). Qed.

(** A truthy value has properties to read. *)
Lemma get_prop_truthy v k : truthy v = true → ∃ x, get_prop v k = Ok x.
Proof. destruct v; unfold truthy, get_prop; try done; eauto. Qed.

End Text.

(** ** The store *)

Section Sequencer.

(** Away from the empty deck, [length - 1 || 0] is the index of the last
    slide. *)
Lemma maxSlide_lastSlideIndex s :
  slidesLength s ≠ Some 0 → maxSlide s = lastSlideIndex s.
Proof.
  unfold maxSlide, lastSlideIndex, slidesLength.
  destruct (currentCourse s) as [[sid ttl [l|] au]|]; simpl; try done.
  intros Hne. destruct l as [|x l]; [done|].
  destruct (Z.eqb_spec (Z.of_nat (length (x :: l)) - 1) 0); simpl length in *; lia.
Qed.

Lemma lastSlideIndex_nonneg s : 0 ≤ lastSlideIndex s.
Proof.
  unfold lastSlideIndex.
  destruct (currentCourse s) as [[sid ttl [l|] au]|]; simpl; lia.
Qed.

(** On a deck whose list of slides is empty [maxSlide] is [-1], and
    [nextSlide] leaves the deck on the negative side. *)
Example nextSlide_on_empty_deck :
  currentSlide (nextSlide (setCurrentCourse (Some deck0) initial)) = -1.
Proof. reflexivity. Qed.

(** C1, as stated, fails: [previousSlide] looks at no deck, so from a slide
    number beyond the deck it steps to one that is still beyond it. *)
Lemma previousSlide_beyond_deck :
  0 ≤ currentSlide (setCurrentSlide 10 (setCurrentCourse (Some deck3) initial))
  ∧ lastSlideIndex (setCurrentSlide 10 (setCurrentCourse (Some deck3) initial)) = 2
  ∧ currentSlide
      (previousSlide (setCurrentSlide 10 (setCurrentCourse (Some deck3) initial)))
    = 9.
Proof. repeat split; vm_compute; congruence. Qed.

(** C1 (amended).  From a slide number that is not negative, [previousSlide]
    moves to [max (currentSlide - 1) 0], which is not negative and stays
    inside the deck when the slide number was inside; and, unless the loaded
    course has an empty list of slides, [nextSlide] moves to
    [min (currentSlide + 1) last], which is not negative and at most the index
    of the last slide (0 without course or slides). *)
Theorem sequencer_keeps_slide_in_deck (s : store) :
  0 ≤ currentSlide s →
  (currentSlide (previousSlide s) = Z.max (currentSlide s - 1) 0
   ∧ 0 ≤ currentSlide (previousSlide s)
   ∧ (currentSlide s ≤ lastSlideIndex s →
      currentSlide (previousSlide s) ≤ lastSlideIndex s))
  ∧ (slidesLength s ≠ Some 0 →
     currentSlide (nextSlide s) = Z.min (currentSlide s + 1) (lastSlideIndex s)
     ∧ 0 ≤ currentSlide (nextSlide s) ≤ lastSlideIndex s).
Proof.
  intros Hcur. split.
  - simpl. pose proof (lastSlideIndex_nonneg s). lia.
  - intros Hne. simpl. rewrite (maxSlide_lastSlideIndex s Hne).
    pose proof (lastSlideIndex_nonneg s). lia.
Qed.

(** On the last slide of a deck of three: back to the second, no further
    than the third. *)
Lemma sequencer_keeps_slide_in_deck_at_deck3 :
  let s := setCurrentSlide 2 (setCurrentCourse (Some deck3) initial) in
  currentSlide (previousSlide s) = 1 ∧ currentSlide (nextSlide s) = 2.
Proof.
  pose (s := setCurrentSlide 2 (setCurrentCourse (Some deck3) initial)).
  assert (H0 : 0 ≤ currentSlide s) by (vm_compute; congruence).
  destruct (sequencer_keeps_slide_in_deck s H0) as [[Hp _] Hn].
  assert (Hne : slidesLength s ≠ Some 0) by (vm_compute; congruence).
  destruct (Hn Hne) as [Hn' _].
  split; [exact Hp | exact Hn'].
Defined.

End Sequencer.

Section Transcript.

(** C7.  [addConversationMessage m] puts [m] at the end of the history and
    leaves what was there where it was; [clearConversationHistory] empties
    the history. *)
Theorem conversation_history_appends (s : store) (m : message) :
  conversationHistory (addConversationMessage m s) = conversationHistory s ++ [m]
  ∧ (∀ i x, conversationHistory s !! i = Some x →
            conversationHistory (addConversationMessage m s) !! i = Some x)
  ∧ conversationHistory (addConversationMessage m s)
      !! length (conversationHistory s) = Some m
  ∧ length (conversationHistory (addConversationMessage m s))
    = S (length (conversationHistory s))
  ∧ conversationHistory (clearConversationHistory s) = [].
Proof.
  simpl. repeat split.
  - intros i x Hi. by apply lookup_app_l_Some.
  - by rewrite list_lookup_middle.
  - rewrite length_app. simpl. lia.
Qed.

End Transcript.

Section Config.

(** C8.  [updateCourseConfig u] gives every property of [u] its value in
    [u], keeps every other property of [courseConfig], and changes no other
    field of the store; [updateUserSettings] does the same on
    [userSettings]. *)
Theorem config_update_is_shallow_merge (s : store) (u : gmap string value) :
  (∀ k, courseConfig (updateCourseConfig u s) !! k = merged (courseConfig s) u k)
  ∧ (∀ k v, u !! k = Some v → courseConfig (updateCourseConfig u s) !! k = Some v)
  ∧ (∀ k, u !! k = None →
          courseConfig (updateCourseConfig u s) !! k = courseConfig s !! k)
  ∧ same_but_courseConfig s (updateCourseConfig u s)
  ∧ userSettings (updateCourseConfig u s) = userSettings s
  ∧ (∀ k, userSettings (updateUserSettings u s) !! k = merged (userSettings s) u k)
  ∧ (∀ k v, u !! k = Some v → userSettings (updateUserSettings u s) !! k = Some v)
  ∧ (∀ k, u !! k = None →
          userSettings (updateUserSettings u s) !! k = userSettings s !! k)
  ∧ same_but_userSettings s (updateUserSettings u s)
  ∧ courseConfig (updateUserSettings u s) = courseConfig s.
Proof.
  assert (Hm : ∀ old k, (u ∪ old) !! k = merged old u k).
  { intros old k. unfold merged. rewrite lookup_union.
    destruct (u !! k), (old !! k); done. }
  unfold same_but_courseConfig, same_but_userSettings.
  simpl. repeat split; try apply Hm.
  - intros k v Hk. by rewrite Hm; unfold merged; rewrite Hk.
  - intros k Hk. by rewrite Hm; unfold merged; rewrite Hk.
  - intros k v Hk. by rewrite Hm; unfold merged; rewrite Hk.
  - intros k Hk. by rewrite Hm; unfold merged; rewrite Hk.
Qed.

End Config.

Section Library.

Lemma filter_keeps_all sid (l : list course) :
  (∀ x, x ∈ l → session_id x ≠ sid) →
  filter (fun c => session_id c ≠ sid) l = l.
Proof.
  induction l as [|x l IH]; intros Hall; [done|].
  rewrite filter_cons_True by (apply Hall; left).
  f_equal. apply IH. intros y Hy. apply Hall. by right.
Qed.

(** C9.  Removing a session twice is removing it once; and on a library
    that holds no course of session [sid], adding a course of that session
    and removing the session gives back the library, in its order. *)
Theorem library_remove_idempotent_and_undoes_add (sid : jsstring) :
  (∀ s, removeCourse sid (removeCourse sid s) = removeCourse sid s)
  ∧ (∀ c s, session_id c = sid →
            (∀ x, x ∈ courses s → session_id x ≠ sid) →
            courses (removeCourse sid (addCourse c s)) = courses s
            ∧ removeCourse sid (addCourse c s) = s).
Proof.
  split.
  - intros s. unfold removeCourse at 1 3. unfold with_courses. simpl.
    f_equal. apply filter_keeps_all.
    intros x Hx. by apply list_elem_of_filter in Hx as [? _].
  - intros c s Hc Hfresh.
    assert (Hl : courses (removeCourse sid (addCourse c s)) = courses s).
    { simpl. rewrite filter_cons_False by (intros Hne; by apply Hne).
      by apply filter_keeps_all. }
    split; [exact Hl|].
    simpl in Hl. unfold removeCourse, addCourse, with_courses. simpl.
    rewrite Hl. by destruct s.
Qed.

(** A course added to a library of two and removed again. *)
Lemma library_remove_undoes_add_at_two_courses :
  let s := setCourses [untitled "a"; untitled "b"] initial in
  removeCourse (txt "c") (addCourse (untitled "c") s) = s.
Proof.
  pose (s := setCourses [untitled "a"; untitled "b"] initial).
  destruct (library_remove_idempotent_and_undoes_add (txt "c")) as [_ Hadd].
  refine (proj2 (Hadd (untitled "c") s eq_refl _)).
  intros x Hx. simpl in Hx.
  apply elem_of_cons in Hx as [->|Hx]; [vm_compute; congruence|].
  apply elem_of_cons in Hx as [->|Hx]; [vm_compute; congruence|].
  by apply elem_of_nil in Hx.
Defined.

End Library.

Section SlideData.

(** C10.  [getCurrentSlideData] is a total function of the store: it is
    [null] without a course, without a list of slides, and for a slide number
    that is negative or past the end of the list; otherwise it is the slide of
    that number. *)
Theorem getCurrentSlideData_total (s : store) :
  (currentCourse s = None → getCurrentSlideData s = None)
  ∧ (∀ c, currentCourse s = Some c → slides_content c = None →
          getCurrentSlideData s = None)
  ∧ (∀ c l, currentCourse s = Some c → slides_content c = Some l →
            currentSlide s < 0 ∨ Z.of_nat (length l) ≤ currentSlide s →
            getCurrentSlideData s = None)
  ∧ (∀ c l, currentCourse s = Some c → slides_content c = Some l →
            0 ≤ currentSlide s < Z.of_nat (length l) →
            ∃ x, l !! Z.to_nat (currentSlide s) = Some x
                 ∧ getCurrentSlideData s = Some x).
Proof.
  unfold getCurrentSlideData, index. repeat split.
  - by intros ->.
  - by intros c -> ->.
  - intros c l -> -> Hout.
    destruct (Z.ltb_spec (currentSlide s) 0); [done|].
    apply lookup_ge_None. lia.
  - intros c l -> -> Hin.
    destruct (Z.ltb_spec (currentSlide s) 0); [lia|].
    destruct (lookup_lt_is_Some_2 l (Z.to_nat (currentSlide s))) as [x Hx]; [lia|].
    exists x. by rewrite Hx.
Qed.

End SlideData.

(** ** The home page *)

Section Generation.
Import HomePage.

(** C2.  Handling a terminal event never throws and leaves the client out
    of the generating state; ['course_complete'] stores the session and the
    course of the event, ['course_error'] leaves both as they were. *)
Theorem terminal_event_ends_generation
    (now : Z) (ev : terminal_event) (p : page) :
  outcome (on_terminal now ev) p = Ok tt
  ∧ isGenerating (st (final (on_terminal now ev) p)) = false
  ∧ match ev with
    | course_complete data =>
        currentSession (st (final (on_terminal now ev) p)) = ce_session_id data
        ∧ currentCourse (st (final (on_terminal now ev) p)) = ce_course_data data
    | course_error _ =>
        currentSession (st (final (on_terminal now ev) p)) = currentSession (st p)
        ∧ currentCourse (st (final (on_terminal now ev) p)) = currentCourse (st p)
    end.
Proof.
  destruct ev as [[sid cd [sm|]]|[err]]; repeat split; reflexivity.
Qed.

Lemma topic_trimmed_string cfg t :
  cfg !! "topic" = Some (VStr t) → topic_trimmed cfg = Ok (trim t).
Proof. unfold topic_trimmed. by intros ->. Qed.

(** The Generate button is disabled on a blank topic, so that the guard of
    [handleStartGeneration] is a second line of defence. *)
Lemma generate_disabled_on_blank_topic s t :
  courseConfig s !! "topic" = Some (VStr t) → blank t →
  generate_disabled s = Ok true.
Proof.
  intros Hcfg Hb. unfold generate_disabled.
  destruct (isGenerating s); [done|].
  rewrite (topic_trimmed_string _ _ Hcfg).
  apply truthy_trim in Hb. by rewrite Hb.
Qed.

(** C5, as stated, fails: with a topic typed in and a socket that does not
    connect in time, [isGenerating] is set and reset, and no request leaves. *)
Lemma generation_offline_sends_no_request :
  courseConfig (st (asking "graphs")) !! "topic" = Some (VStr (txt "graphs"))
  ∧ trim (txt "graphs") = txt "graphs"
  ∧ trace (handleStartGeneration (courseConfig (st (asking "graphs"))) offline)
          (asking "graphs")
    = [SetGenerating true; SocketConnect; SetGenerating false;
       Toast failure ConnectionTimeout]
  ∧ isGenerating
      (st (final (handleStartGeneration (courseConfig (st (asking "graphs")))
                    offline) (asking "graphs"))) = false.
Proof. repeat split; vm_compute; reflexivity. Qed.

(** The three ways [handleStartGeneration] can go. *)
Lemma handleStartGeneration_blank cfg e t p :
  cfg !! "topic" = Some (VStr t) → blank t →
  run (handleStartGeneration cfg e) p = (Ok tt, (p, [Toast failure EnterTopic])).
Proof.
  intros Hcfg Hb. apply trim_nil in Hb.
  unfold run, handleStartGeneration, mbind, M_bind, bind, await at 1.
  by rewrite (topic_trimmed_string _ _ Hcfg), Hb.
Qed.

Lemma handleStartGeneration_unconnected cfg e t p :
  cfg !! "topic" = Some (VStr t) → ¬ blank t → ¬ reaches_server e →
  ∃ why,
    run (handleStartGeneration cfg e) p
    = (Ok tt,
       (with_st (AppStore.setGenerating false)
          (with_st (AppStore.setGenerating true) p),
        [SetGenerating true; SocketConnect; SetGenerating false;
         Toast failure why])).
Proof.
  intros Hcfg Hb Hno. rewrite <- trim_nil in Hb.
  unfold run, handleStartGeneration, mbind, M_bind, bind, await at 1.
  rewrite (topic_trimmed_string _ _ Hcfg).
  destruct (trim t) as [|c r]; [done|]. clear Hb.
  unfold reaches_server in Hno.
  destruct e as [[] [] cg gen]; simpl in Hno; try tauto.
  destruct cg as [|err|]; [tauto| |]; simpl.
  - steps; split_tests; eexists; reflexivity.
  - steps; eexists; reflexivity.
Qed.

Lemma handleStartGeneration_connected cfg e t p :
  cfg !! "topic" = Some (VStr t) → ¬ blank t → reaches_server e →
  ∃ p' rest,
    run (handleStartGeneration cfg e) p
    = (Ok tt, (p', SetGenerating true :: rest))
    ∧ PostGenerateCourse cfg ∈ rest
    ∧ (∀ data, generate e = Ok data → isGenerating (st p') = true).
Proof.
  intros Hcfg Hb Hyes. rewrite <- trim_nil in Hb.
  unfold run, handleStartGeneration, mbind, M_bind, bind, await at 1.
  rewrite (topic_trimmed_string _ _ Hcfg).
  destruct (trim t) as [|c r]; [done|]. clear Hb.
  unfold reaches_server in Hyes.
  destruct e as [sc ca cg gen]; simpl in Hyes.
  assert (Hcase : sc = true
                  ∨ sc = false ∧ (ca = true ∨ ca = false ∧ cg = connected)).
  { destruct sc, ca; intuition congruence. }
  destruct Hcase as [->|[-> [->|[-> ->]]]]; steps.
  all: destruct gen as [data|err]; simpl.
  all: try (destruct (truthy data) eqn:Hdata;
            [destruct (get_prop_truthy data "session_id" Hdata) as [sid ->]|];
            simpl).
  all: split_tests; simpl.
  all: eexists _, _; (split; [reflexivity|]); (split; [set_solver|done]).
Qed.

(** C5 (amended).  With a topic that is empty or white space only,
    [handleStartGeneration] shows an error and changes nothing: no request,
    the same store.  With any other topic it first sets [isGenerating]; when
    the socket is connected or connects it sends the generate-course request
    with the configuration, and [isGenerating] stays set once the request is
    answered; when the socket fails to connect no request is sent and
    [isGenerating] is reset. *)
Theorem generation_needs_topic_and_connection
    (p : page) (e : env) (t : jsstring) :
  courseConfig (st p) !! "topic" = Some (VStr t) →
  (blank t →
     final (handleStartGeneration (courseConfig (st p)) e) p = p
     ∧ trace (handleStartGeneration (courseConfig (st p)) e) p
       = [Toast failure EnterTopic])
  ∧ (¬ blank t →
     (∃ rest, trace (handleStartGeneration (courseConfig (st p)) e) p
              = SetGenerating true :: rest)
     ∧ (reaches_server e →
        PostGenerateCourse (courseConfig (st p))
          ∈ trace (handleStartGeneration (courseConfig (st p)) e) p
        ∧ ∀ data, generate e = Ok data →
            isGenerating
              (st (final (handleStartGeneration (courseConfig (st p)) e) p))
            = true)
     ∧ (¬ reaches_server e →
        (∀ c, PostGenerateCourse c
              ∉ trace (handleStartGeneration (courseConfig (st p)) e) p)
        ∧ isGenerating
            (st (final (handleStartGeneration (courseConfig (st p)) e) p))
          = false)).
Proof.
  intros Hcfg. unfold final, trace. split.
  - intros Hb. by rewrite (handleStartGeneration_blank _ e _ p Hcfg Hb).
  - intros Hb. split; [|split].
    + destruct e as [sc ca cg gen].
      set (e := {| socket_connected := sc; connected_at_once := ca;
                   connecting := cg; generate := gen |}).
      assert (Hdec : reaches_server e ∨ ¬ reaches_server e).
      { unfold reaches_server; simpl.
        destruct sc, ca, cg; intuition congruence. }
      destruct Hdec as [Hyes|Hno].
      * destruct (handleStartGeneration_connected _ e _ p Hcfg Hb Hyes)
          as (p' & rest & -> & _). by exists rest.
      * destruct (handleStartGeneration_unconnected _ e _ p Hcfg Hb Hno)
          as (why & ->). by eexists.
    + intros Hyes.
      destruct (handleStartGeneration_connected _ e _ p Hcfg Hb Hyes)
        as (p' & rest & -> & Hin & Hgen). simpl. split; [by right|done].
    + intros Hno.
      destruct (handleStartGeneration_unconnected _ e _ p Hcfg Hb Hno)
        as (why & ->). simpl. split; [|done].
      intros c Hc. set_solver.
Qed.

(** A topic of two spaces changes nothing; the topic "graphs", with the
    socket connected, sends the request. *)
Lemma generation_needs_topic_and_connection_at_samples :
  final (handleStartGeneration (courseConfig (st (asking "  "))) online)
        (asking "  ") = asking "  "
  ∧ PostGenerateCourse (courseConfig (st (asking "graphs")))
      ∈ trace (handleStartGeneration (courseConfig (st (asking "graphs"))) online)
              (asking "graphs").
Proof.
  split.
  - refine (proj1 (proj1 (generation_needs_topic_and_connection
                            (asking "  ") online (txt "  ") _) _)).
    + vm_compute; reflexivity.
    + repeat constructor.
  - refine (proj1 (proj1 (proj2 (proj2 (generation_needs_topic_and_connection
                            (asking "graphs") online (txt "graphs") _) _)) _)).
    + vm_compute; reflexivity.
    + intros Hb. inversion Hb as [|? ? Hc]. vm_compute in Hc. discriminate.
    + left. reflexivity.
Defined.

End Generation.

(** ** The presentation page *)

Section Player.
Import PresentationPage.

(** Case analysis on whatever a handler is waiting on. *)
Ltac cases :=
  repeat (simpl;
          match goal with
          | |- context [match ?x with _ => _ end] =>
              lazymatch x with
              | context [match _ with _ => _ end] => fail
              | _ => destruct x eqn:?
              end
          end);
  simpl.

(** [speakAIResponse] never throws and leaves the store alone: it only
    stops, requests and plays the spoken answer. *)
Lemma speakAIResponse_run v e text w :
  ∃ q new, speakAIResponse v e text w = (Ok tt, (q, w.2 ++ new))
           ∧ st q = st w.1
           ∧ (∀ k t, Toast k t ∉ new)
           ∧ (∀ i x c, PostConversationAsk i x c ∉ new).
Proof.
  destruct w as [q tr]. unfold speakAIResponse, stopAISpeech, live. steps.
  cases.
  all: eexists _, _; rewrite <- ?app_assoc; simpl.
  all: (split; [try reflexivity|]).
  all: try (rewrite app_nil_r; reflexivity).
  all: try (split; [reflexivity|]); split; intros; set_solver.
Qed.

#[local] Arguments speakAIResponse : simpl never.

(** The test [transcriptionText && transcriptionText.trim()] on a string. *)
Lemma heard_string t :
  truthy (VStr t) && truthy (VStr (trim t)) = bool_decide (¬ blank t).
Proof.
  destruct (truthy (VStr (trim t))) eqn:Htrim.
  - rewrite bool_decide_true.
    + destruct t; [done|]. reflexivity.
    + intros Hb. apply truthy_trim in Hb. congruence.
  - rewrite bool_decide_false; [by rewrite andb_false_r|].
    intros Hnb. by apply Hnb, truthy_trim.
Qed.


(** C3.  A recording whose transcription [t] is not blank and whose question
    is answered appends the question, then the answer, to the history, and
    reports no failure; a recording whose transcription is empty or white
    space only appends nothing. *)
Theorem recording_appends_question_then_answer
    (v : page) (e : env) (audioBlob : blob) (p : page) :
  (∀ data t answer,
     transcribe e = Ok data → transcriptionText data = Ok (VStr t) →
     ¬ blank t →
     ask e = Ok answer → answer ≠ VUndefined → answer ≠ VNull →
     conversationHistory (st (final (processRecording v e audioBlob) p))
     = conversationHistory (st p)
       ++ [ {| role := "user"; content := VStr t;
               timestamp := now_question e |};
            {| role := "teacher"; content := answerOf answer;
               timestamp := now_answer e |} ]
     ∧ (∀ t', Toast failure t' ∉ trace (processRecording v e audioBlob) p))
  ∧ (∀ data t,
     transcribe e = Ok data → transcriptionText data = Ok (VStr t) →
     blank t →
     conversationHistory (st (final (processRecording v e audioBlob) p))
     = conversationHistory (st p)
     ∧ trace (processRecording v e audioBlob) p
       = [PostTranscribe audioBlob; Toast plain NoSpeech]).
Proof.
  split.
  - intros data t answer Htr Htext Hnb Hask Hu Hn.
    unfold final, trace, run, processRecording, live, act. steps.
    rewrite Htr. simpl. rewrite Htext. simpl.
    rewrite heard_string, bool_decide_true by done. simpl.
    rewrite Hask. simpl.
    set (question := {| role := "user" |}).
    assert (Hread : ∃ r a, get_prop answer "response" = Ok r
                           ∧ get_prop answer "answer" = Ok a
                           ∧ answerOf answer = or_else r a).
    { destruct answer; try done; unfold get_prop, answerOf; eauto. }
    destruct Hread as (r & a & -> & Ha & ->). simpl.
    unfold or_else. destruct (truthy r) eqn:Hr; simpl; [|rewrite Ha; simpl].
    all: match goal with
         | |- context [speakAIResponse ?v' ?e' ?x ?w] =>
             destruct (speakAIResponse_run v' e' x w)
               as (q & new & -> & Hst & Hno & _)
         end; simpl in *.
    all: rewrite Hst; simpl; rewrite <- app_assoc; split; [done|].
    all: intros t' Hin; repeat (apply elem_of_app in Hin as [Hin|Hin]);
      try (by apply Hno in Hin); set_solver.
  - intros data t Htr Htext Hb.
    unfold final, trace, run, processRecording, live, act. steps.
    rewrite Htr. simpl. rewrite Htext. simpl.
    rewrite heard_string, bool_decide_false by (intros Hnb; by apply Hnb).
    done.
Qed.

(** One question asked and answered on an empty history. *)
Lemma recording_appends_question_then_answer_at_sample :
  conversationHistory
    (st (final (processRecording watching answering [82; 73]%N) watching))
  = [ {| role := "user"; content := VStr (txt "why a tree?");
         timestamp := txt "2025-01-01T10:00:00.000Z" |};
      {| role := "teacher"; content := VStr (txt "it has no cycle");
         timestamp := txt "2025-01-01T10:00:02.000Z" |} ].
Proof.
  refine (proj1 (proj1 (recording_appends_question_then_answer
                          watching answering [82; 73]%N watching)
                   (VObj {[ "transcription" := VStr (txt "why a tree?") ]})
                   (txt "why a tree?")
                   (VObj {[ "response" := VStr (txt "it has no cycle") ]})
                   eq_refl eq_refl _ eq_refl _ _)); try discriminate.
  intros Hb. inversion Hb as [|? ? Hc]. vm_compute in Hc. discriminate.
Defined.





#[local] Arguments startPosition : simpl never.


(** [startSlideAudio] never throws, touches neither the saved position nor
    the dialog, and whatever it starts playing starts at the position it was
    asked for. *)
Lemma startSlideAudio_run v e o w :
  ∃ q new, startSlideAudio v e o w = (Ok tt, (q, w.2 ++ new))
           ∧ pausedPosition q = pausedPosition w.1
           ∧ showResumeOptions q = showResumeOptions w.1
           ∧ manuallyResumed q = manuallyResumed w.1
           ∧ (∀ s pos, AudioPlay s pos ∈ new → pos = startPosition v o).
Proof.
  destruct w as [q tr].
  unfold startSlideAudio, playPregenerated, playGenerated, play, load,
    live, act.
  steps. cases.
  all: eexists _, _; rewrite <- ?app_assoc; simpl.
  all: (split; [try reflexivity; rewrite app_nil_r; reflexivity|]).
  all: repeat (split; [reflexivity|]).
  all: intros src0 pos Hin;
    repeat (apply elem_of_cons in Hin as [Hin|Hin]);
    try discriminate; try (by apply elem_of_nil in Hin);
    try (by inversion Hin).
Qed.


#[local] Arguments startSlideAudio : simpl never.

Lemma pauseAudio_saves_position p el :
  audioRef p = Some el →
  pausedPosition (final pauseAudio p) = currentTime el
  ∧ isPlaying (st (final pauseAudio p)) = false
  ∧ audioRef (final pauseAudio p)
    = Some {| src := src el; currentTime := currentTime el; paused := true;
              listening := listening el |}
  ∧ trace pauseAudio p = [AudioPause].
Proof.
  intros Hel. unfold final, trace, run, pauseAudio, live, act. steps.
  by rewrite Hel.
Qed.

(** Without the element [pauseAudio] does nothing at all. *)
Lemma pauseAudio_unmounted p :
  audioRef p = None → run pauseAudio p = (Ok tt, (p, [])).
Proof.
  intros Hel. unfold run, pauseAudio, live, act. steps. by rewrite Hel.
Qed.







End Player.

(** * Further properties *)

(** Case analysis on whatever a handler is waiting on, innermost first. *)
Ltac branches :=
  repeat (simpl;
          match goal with
          | |- context [match ?x with _ => _ end] =>
              lazymatch x with
              | context [match _ with _ => _ end] => fail
              | _ => destruct x eqn:?
              end
          end);
  simpl.

(** ** The store, continued *)

Section Navigation.

(** X1.  Under the guards the player puts before them, [nextSlide] and
    [previousSlide] move by one slide and undo each other. *)
Theorem guarded_next_and_previous_are_inverse (s : store) :
  (hasNextSlide s = true →
     currentSlide (nextSlide s) = currentSlide s + 1
     ∧ (0 ≤ currentSlide s → previousSlide (nextSlide s) = s))
  ∧ (hasPreviousSlide s = true →
     currentSlide (previousSlide s) = currentSlide s - 1
     ∧ (currentSlide s ≤ maxSlide s → nextSlide (previousSlide s) = s)).
Proof.
  unfold hasNextSlide, hasPreviousSlide. split.
  - intros Hn%Z.ltb_lt. split; [simpl; lia|]. intros H0.
    unfold previousSlide, nextSlide, with_currentSlide. simpl.
    replace (Z.max (Z.min (currentSlide s + 1) (maxSlide s) - 1) 0)
      with (currentSlide s) by lia.
    by destruct s.
  - intros Hp%Z.ltb_lt. split; [simpl; lia|]. intros Hm.
    unfold previousSlide, nextSlide, with_currentSlide, maxSlide, slidesLength
      in *. simpl in *.
    match goal with
    | |- context [Z.min ?a ?b] => replace (Z.min a b) with (currentSlide s) by lia
    end.
    by destruct s.
Qed.

(** On the second of three slides, forth and back. *)
Lemma guarded_next_and_previous_are_inverse_at_deck3 :
  let s := setCurrentSlide 1 (setCurrentCourse (Some deck3) initial) in
  previousSlide (nextSlide s) = s ∧ nextSlide (previousSlide s) = s.
Proof.
  pose (s := setCurrentSlide 1 (setCurrentCourse (Some deck3) initial)).
  destruct (guarded_next_and_previous_are_inverse s) as [Hn Hp].
  split.
  - refine (proj2 (Hn eq_refl) _). vm_compute; congruence.
  - refine (proj2 (Hp eq_refl) _). vm_compute; congruence.
Defined.

End Navigation.

Section Templates.

Lemma includesText_elem (a : list value) (x : jsstring) :
  includesText a x = true ↔ VStr x ∈ a.
Proof.
  unfold includesText. rewrite existsb_exists. split.
  - intros (v & Hin & Hv). destruct v; try done.
    apply bool_decide_eq_true in Hv as ->. by apply list_elem_of_In.
  - intros Hin. exists (VStr x). split; [by apply list_elem_of_In|].
    by apply bool_decide_eq_true.
Qed.

(** X2.  [applyTemplate] writes four properties of the configuration and
    nothing else: the topic and every other property stay, as does the rest of
    the store.  The focus is ['theoretical'] as soon as the template lists it,
    also beside ['practical']; prerequisites are ['custom'] exactly when the
    template has some. *)
Theorem applyTemplate_writes_four_keys (t : template) (s : store) :
  (∀ k, k ∉ ["complexity"; "duration"; "prerequisitesHandling";
             "specializedFocus"] →
        courseConfig (applyTemplate t s) !! k = courseConfig s !! k)
  ∧ applyTemplate t s = with_courseConfig (courseConfig (applyTemplate t s)) s
  ∧ courseConfig (applyTemplate t s) !! "complexity" = Some (tpl_complexity t)
  ∧ courseConfig (applyTemplate t s) !! "duration" = Some (tpl_duration t)
  ∧ (VStr (txt "theoretical") ∈ tpl_focus_areas t →
     courseConfig (applyTemplate t s) !! "specializedFocus"
     = Some (VStr (txt "theoretical")))
  ∧ (VStr (txt "theoretical") ∉ tpl_focus_areas t →
     VStr (txt "practical") ∈ tpl_focus_areas t →
     courseConfig (applyTemplate t s) !! "specializedFocus"
     = Some (VStr (txt "practical")))
  ∧ (courseConfig (applyTemplate t s) !! "prerequisitesHandling"
     = Some (VStr (txt "custom")) ↔ tpl_prerequisites t ≠ []).
Proof.
  unfold applyTemplate. cbn [courseConfig with_courseConfig].
  split; [|split; [reflexivity|]].
  { intros k Hk. rewrite lookup_union_r; [done|].
    apply not_elem_of_list_to_map_1. exact Hk. }
  split; [by apply lookup_union_Some_l|].
  split; [by apply lookup_union_Some_l|].
  split; [|split].
  - intros Hin. apply includesText_elem in Hin.
    apply lookup_union_Some_l.
    transitivity
      (Some (VStr (if includesText (tpl_focus_areas t) (txt "theoretical")
                   then txt "theoretical"
                   else if includesText (tpl_focus_areas t) (txt "practical")
                        then txt "practical" else txt "balanced")));
      [reflexivity|by rewrite Hin].
  - intros Hno Hin. apply includesText_elem in Hin.
    assert (includesText (tpl_focus_areas t) (txt "theoretical") = false)
      as Hf.
    { apply not_true_is_false. by rewrite includesText_elem. }
    apply lookup_union_Some_l.
    transitivity
      (Some (VStr (if includesText (tpl_focus_areas t) (txt "theoretical")
                   then txt "theoretical"
                   else if includesText (tpl_focus_areas t) (txt "practical")
                        then txt "practical" else txt "balanced")));
      [reflexivity|by rewrite Hf, Hin].
  - rewrite (lookup_union_Some_l _ _ "prerequisitesHandling"
               (VStr (if 0 <? Z.of_nat (length (tpl_prerequisites t))
                      then txt "custom" else txt "auto"))) by reflexivity.
    destruct (tpl_prerequisites t) as [|x l]; simpl.
    + split; [intros [=]|done].
    + split; [done|reflexivity].
Qed.

(** A template that lists both theory and practice. *)
Lemma applyTemplate_writes_four_keys_at_mixed :
  courseConfig (applyTemplate mixedTemplate (asking "graphs").(HomePage.st))
    !! "specializedFocus" = Some (VStr (txt "theoretical"))
  ∧ courseConfig (applyTemplate mixedTemplate (asking "graphs").(HomePage.st))
      !! "topic" = Some (VStr (txt "graphs")).
Proof.
  pose proof (applyTemplate_writes_four_keys mixedTemplate
                (asking "graphs").(HomePage.st))
    as (Hframe & _ & _ & _ & Hth & _).
  split.
  - apply Hth. right. left.
  - rewrite Hframe; [reflexivity|]. set_solver.
Defined.

End Templates.

Section Settings.

Lemma defined_dec (v : value) : defined v ∨ v = VUndefined ∨ v = VNull.
Proof. unfold defined. destruct v; auto; left; split; discriminate. Qed.

Lemma get_prop_defined (v : value) (k : string) :
  defined v → get_prop v k = Ok (Client.opt_prop v k).
Proof. intros [Hu Hn]. by destruct v. Qed.

Lemma get_prop_undefined (v : value) (k : string) :
  ¬ defined v → get_prop v k = Throw TypeError.
Proof.
  intros Hv. destruct (defined_dec v) as [?|[->| ->]]; [done| |]; reflexivity.
Qed.

Lemma readSettings_defined settings table :
  Forall (fun entry : string * (string * string) =>
            defined (default VUndefined (settings !! entry.2.1))) table →
  readSettings settings table = Ok (readEntry settings <$> table).
Proof.
  induction 1 as [|[key [section k]] rest Hd _ IH]; [done|].
  simpl in *. unfold setting. by rewrite (get_prop_defined _ _ Hd), IH.
Qed.

Lemma readSettings_undefined settings table section :
  section ∈ (fun entry : string * (string * string) => entry.2.1) <$> table →
  ¬ defined (default VUndefined (settings !! section)) →
  ∃ e, readSettings settings table = Throw e.
Proof.
  intros Hin Hu. induction table as [|[key [sec k]] rest IH].
  - by apply elem_of_nil in Hin.
  - simpl. unfold setting at 1.
    destruct (decide (sec = section)) as [->|Hne].
    + rewrite (get_prop_undefined _ _ Hu). eauto.
    + destruct (get_prop _ k); [|eauto].
      destruct IH as [e ->]; [|eauto].
      simpl in Hin. apply elem_of_cons in Hin as [?|?]; [congruence|done].
Qed.

Lemma settingsToConfig_keys : NoDup settingsToConfig.*1.
Proof.
  apply (bool_decide_unpack (NoDup settingsToConfig.*1)). by vm_compute.
Qed.

Lemma settingsToConfig_sections :
  ∀ entry, entry ∈ settingsToConfig → entry.2.1 ∈ settingsSections.
Proof.
  apply Forall_forall. unfold settingsToConfig, settingsSections.
  repeat (constructor; [simpl; set_solver|]). constructor.
Qed.

Lemma settingsSections_read :
  ∀ section, section ∈ settingsSections →
    section ∈ (fun entry : string * (string * string) => entry.2.1)
                <$> settingsToConfig.
Proof.
  apply Forall_forall. unfold settingsToConfig, settingsSections.
  repeat (constructor; [simpl; set_solver|]). constructor.
Qed.

(** X3.  [loadUserSettings] changes nothing when the request fails.  When
    the settings hold the four sections it reads, [course_defaults], [tts],
    [presentation] and [advanced], it stores them and copies fourteen of their
    values into the configuration, a missing value as [undefined], and keeps
    every other property of the configuration, the topic among them.  When one
    of these sections is missing, the settings are stored all the same and the
    configuration is left as it was.  No other field of the store changes. *)
Theorem loadUserSettings_cases (s : store) :
  (∀ err, loadUserSettings (Throw err) s = s)
  ∧ (∀ settings,
       (∀ section, section ∈ settingsSections →
                   defined (default VUndefined (settings !! section))) →
       userSettings (loadUserSettings (Ok settings) s) = settings
       ∧ (∀ key section k,
            (key, (section, k)) ∈ settingsToConfig →
            courseConfig (loadUserSettings (Ok settings) s) !! key
            = Some (Client.opt_prop
                      (default VUndefined (settings !! section)) k))
       ∧ (∀ key, key ∉ settingsToConfig.*1 →
            courseConfig (loadUserSettings (Ok settings) s) !! key
            = courseConfig s !! key))
  ∧ (∀ settings section,
       section ∈ settingsSections →
       ¬ defined (default VUndefined (settings !! section)) →
       userSettings (loadUserSettings (Ok settings) s) = settings
       ∧ courseConfig (loadUserSettings (Ok settings) s) = courseConfig s)
  ∧ (∀ response,
       loadUserSettings response s
       = with_courseConfig (courseConfig (loadUserSettings response s))
           (with_userSettings (userSettings (loadUserSettings response s)) s)).
Proof.
  split; [done|]. split; [|split].
  - intros settings Hall. unfold loadUserSettings.
    rewrite readSettings_defined.
    2:{ apply Forall_forall. intros entry Hin.
        by apply Hall, settingsToConfig_sections. }
    assert (Hkeys : (readEntry settings <$> settingsToConfig).*1
                    = settingsToConfig.*1).
    { rewrite <- list_fmap_compose. by apply list_fmap_ext. }
    cbn [courseConfig userSettings updateCourseConfig with_courseConfig
           setUserSettings with_userSettings].
    split; [done|]. split.
    + intros key section k Hin. apply lookup_union_Some_l.
      apply elem_of_list_to_map_1.
      * rewrite Hkeys. apply settingsToConfig_keys.
      * apply (list_elem_of_fmap_2 (readEntry settings)) in Hin. exact Hin.
    + intros key Hkey. rewrite lookup_union_r; [done|].
      apply not_elem_of_list_to_map_1. by rewrite Hkeys.
  - intros settings section Hin Hu. unfold loadUserSettings.
    destruct (readSettings_undefined settings settingsToConfig section
                (settingsSections_read _ Hin) Hu) as [e ->].
    done.
  - intros [settings|e]; unfold loadUserSettings; [|by destruct s].
    destruct (readSettings settings settingsToConfig); by destruct s.
Qed.

(** The settings the store starts with, loaded over a typed-in topic. *)
Lemma loadUserSettings_cases_at_initial :
  courseConfig
    (loadUserSettings (Ok initialUserSettings) (asking "graphs").(HomePage.st))
    !! "topic" = Some (VStr (txt "graphs"))
  ∧ courseConfig
      (loadUserSettings (Ok (delete "tts" initialUserSettings))
         (asking "graphs").(HomePage.st))
    = courseConfig (asking "graphs").(HomePage.st).
Proof.
  pose proof (loadUserSettings_cases (asking "graphs").(HomePage.st))
    as (_ & Hok & Hmiss & _).
  split.
  - destruct (Hok initialUserSettings) as (_ & _ & Hframe).
    + intros section Hin. unfold settingsSections in Hin.
      repeat (apply elem_of_cons in Hin as [->|Hin];
              [split; vm_compute; discriminate|]).
      by apply elem_of_nil in Hin.
    + rewrite Hframe; [reflexivity|].
      apply (bool_decide_unpack ("topic" ∉ settingsToConfig.*1)).
      by vm_compute.
  - refine (proj2 (Hmiss (delete "tts" initialUserSettings) "tts" _ _)).
    + unfold settingsSections. set_solver.
    + intros [Hu _]. apply Hu. reflexivity.
Defined.

End Settings.

(** ** The API client *)

Section ApiErrors.
Import Client.

(** X4.  [handleAPIError] throws on an [undefined] or [null] error and on
    nothing else.  It answers with the server's [error], else the server's
    [message], else the error's own [message], else the default message, the
    first of them that is truthy; the default message is the second argument,
    and ['An error occurred'] when that is [undefined] or left out.  So with a
    truthy or a left-out second argument the answer is truthy. *)
Theorem handleAPIError_picks_first_message (error defaultMessage : value) :
  (¬ defined error → handleAPIError error defaultMessage = Throw TypeError)
  ∧ (defined error →
     ∃ r, handleAPIError error defaultMessage = Ok r
          ∧ (truthy defaultMessage = true → truthy r = true)
          ∧ (defaultMessage = VUndefined → truthy r = true)
          ∧ (truthy (opt_prop (opt_prop (opt_prop error "response") "data")
                       "error") = true →
             r = opt_prop (opt_prop (opt_prop error "response") "data") "error")
          ∧ (truthy (opt_prop (opt_prop (opt_prop error "response") "data")
                       "error") = false →
             truthy (opt_prop (opt_prop (opt_prop error "response") "data")
                       "message") = true →
             r = opt_prop (opt_prop (opt_prop error "response") "data")
                   "message")
          ∧ (truthy (opt_prop (opt_prop (opt_prop error "response") "data")
                       "error") = false →
             truthy (opt_prop (opt_prop (opt_prop error "response") "data")
                       "message") = false →
             r = if truthy (opt_prop error "message")
                 then opt_prop error "message"
                 else defaulted defaultMessage
                        (VStr (txt "An error occurred")))).
Proof.
  unfold handleAPIError. cbv zeta. split.
  - intros Hu. by rewrite (get_prop_undefined _ _ Hu).
  - intros Hd. rewrite !(get_prop_defined _ _ Hd).
    set (se := opt_prop (opt_prop (opt_prop error "response") "data") "error").
    set (sm := opt_prop (opt_prop (opt_prop error "response") "data")
                 "message").
    destruct (truthy se) eqn:Hse; [|destruct (truthy sm) eqn:Hsm].
    + exists se. by repeat split.
    + exists sm. by repeat split.
    + destruct (truthy (opt_prop error "message")) eqn:Hm;
        eexists; (split; [reflexivity|]); repeat split; try done.
      * intros Ht. by destruct defaultMessage.
      * by intros ->.
Qed.

(** No error at all, the error of a server that explains itself, and an
    error that says nothing, handled without a second argument. *)
Lemma handleAPIError_picks_first_message_at_samples :
  handleAPIError VUndefined (VStr (txt "An error occurred")) = Throw TypeError
  ∧ (∃ r, handleAPIError
            (VObj {[ "response" :=
                       VObj {[ "data" :=
                                 VObj {[ "error" := VStr (txt "No topic") ]} ]} ]})
            (VStr (txt "An error occurred")) = Ok r
          ∧ r = VStr (txt "No topic"))
  ∧ ∃ r, handleAPIError (VObj ∅) VUndefined = Ok r
         ∧ r = VStr (txt "An error occurred").
Proof.
  split; [|split].
  - refine (proj1 (handleAPIError_picks_first_message VUndefined _) _).
    intros [Hu _]. by apply Hu.
  - destruct (proj2 (handleAPIError_picks_first_message
                       (VObj {[ "response" :=
                                  VObj {[ "data" :=
                                            VObj {[ "error" :=
                                                      VStr (txt "No topic") ]} ]} ]})
                       (VStr (txt "An error occurred"))))
      as (r & Hr & _ & _ & Hfirst & _).
    { split; discriminate. }
    exists r. split; [exact Hr|]. exact (Hfirst eq_refl).
  - destruct (proj2 (handleAPIError_picks_first_message (VObj ∅) VUndefined))
      as (r & Hr & _ & _ & _ & _ & Hlast).
    { split; discriminate. }
    exists r. split; [exact Hr|]. exact (Hlast eq_refl eq_refl).
Defined.

End ApiErrors.

Section Timeouts.
Import Client.

Lemma startsWith_prefix (needle hay : jsstring) :
  startsWith needle hay = true ↔ ∃ rest, hay = needle ++ rest.
Proof.
  revert hay. induction needle as [|n ns IH]; intros hay; simpl.
  - split; [eauto|done].
  - destruct hay as [|h hs]; [split; [done|intros [? [=]]]|].
    rewrite andb_true_iff, N.eqb_eq, IH. split.
    + intros [-> [rest ->]]. eauto.
    + intros [rest [= -> ->]]. eauto.
Qed.

(** [includes] finds the needle exactly in the texts that contain it. *)
Lemma includes_infix (hay needle : jsstring) :
  includes hay needle = true ↔ ∃ before after, hay = before ++ needle ++ after.
Proof.
  induction hay as [|h hs IH]; simpl.
  - rewrite orb_false_r, startsWith_prefix. split.
    + intros [rest Hr]. exists [], rest. exact Hr.
    + intros (before & after & Hr). symmetry in Hr.
      apply app_eq_nil in Hr as [-> Hr]. apply app_eq_nil in Hr as [-> ->].
      by exists [].
  - rewrite orb_true_iff, startsWith_prefix, IH. split.
    + intros [[rest Hr]|(before & after & ->)].
      * by exists [], rest.
      * by exists (h :: before), after.
    + intros (before & after & Hr). destruct before as [|b before].
      * left. by exists after.
      * right. injection Hr as -> ->. by exists before, after.
Qed.

(** X5.  [isTimeoutError] is true for the code ['ECONNABORTED'] without
    looking at the message; for any other code it throws when the error has no
    message, and for a message that is a text it tells whether the text
    contains ['timeout']. *)
Theorem isTimeoutError_cases (fields : gmap string value) :
  (fields !! "code" = Some (VStr (txt "ECONNABORTED")) →
   isTimeoutError (VObj fields) = Ok true)
  ∧ (fields !! "code" ≠ Some (VStr (txt "ECONNABORTED")) →
     (fields !! "message" = None →
      isTimeoutError (VObj fields) = Throw TypeError)
     ∧ (∀ m, fields !! "message" = Some (VStr m) →
          ∃ b, isTimeoutError (VObj fields) = Ok b
               ∧ (b = true
                  ↔ ∃ before after, m = before ++ txt "timeout" ++ after))).
Proof.
  unfold isTimeoutError, get_prop. split.
  - intros ->. reflexivity.
  - intros Hcode.
    assert (Hno : match default VUndefined (fields !! "code") with
                  | VStr c => bool_decide (c = txt "ECONNABORTED")
                  | _ => false
                  end = false).
    { destruct (fields !! "code") as [[]|]; simpl; try done.
      apply bool_decide_eq_false. congruence. }
    rewrite Hno. split.
    + by intros ->.
    + intros m ->. simpl. eexists. split; [reflexivity|].
      apply includes_infix.
Qed.

(** The error [handleStartGeneration] rejects with is a timeout error; an
    error with neither code nor message makes [isTimeoutError] throw. *)
Lemma isTimeoutError_cases_at_samples :
  (∃ b, isTimeoutError
          (VObj {[ "message" := VStr (txt "Socket connection timeout") ]})
        = Ok b
        ∧ (b = true
           ↔ ∃ before after,
               txt "Socket connection timeout"
               = before ++ txt "timeout" ++ after))
  ∧ isTimeoutError (VObj ∅) = Throw TypeError.
Proof.
  split.
  - refine (proj2 (proj2 (isTimeoutError_cases
                            {[ "message" :=
                                 VStr (txt "Socket connection timeout") ]}) _)
              _ eq_refl).
    vm_compute. discriminate.
  - refine (proj1 (proj2 (isTimeoutError_cases ∅) _) eq_refl).
    vm_compute. discriminate.
Defined.

End Timeouts.

Section Sockets.
Import Client.



Lemma call_keeps_one_socket (c : socket_call) w tr :
  liveSockets tr = heldSocket w →
  ∃ w' new, call c (w, tr) = (Ok tt, (w', tr ++ new))
            ∧ liveSockets (tr ++ new) = heldSocket w'
            ∧ (made w ≤ made w')%nat
            ∧ (∀ id, Io id ∈ new → socket w = None ∧ socket w' = Some id).
Proof.
  intros Hinv. destruct w as [[id|] n].
  all: destruct c; unfold call, getSocket, initializeSocket, disconnectSocket.
  all: steps.
  all: eexists _, _; (split; [try reflexivity; by rewrite app_nil_r|]).
  all: unfold liveSockets in *; rewrite ?fold_left_app, ?app_nil_r, ?Hinv.
  all: simpl; unfold heldSocket; simpl.
  all: repeat split; try done; try lia; try set_solver.
  all: by rewrite filter_cons_False, filter_nil by (intros Hne; by apply Hne).
Qed.

Lemma calls_keep_one_socket (cs : list socket_call) w tr :
  liveSockets tr = heldSocket w →
  ∃ w' new, calls cs (w, tr) = (Ok tt, (w', tr ++ new))
            ∧ liveSockets (tr ++ new) = heldSocket w'.
Proof.
  revert w tr. induction cs as [|c cs IH]; intros w tr Hinv.
  - exists w, []. rewrite app_nil_r. by split.
  - destruct (call_keeps_one_socket c w tr Hinv) as (w1 & new1 & Hc & H1 & _).
    destruct (IH w1 (tr ++ new1) H1) as (w2 & new2 & Hcs & H2).
    exists w2, (new1 ++ new2). rewrite app_assoc. split; [|done].
    simpl. unfold mbind, M_bind, bind. by rewrite Hc.
Qed.

(** X6.  Whatever the order in which [initializeSocket], [getSocket] and
    [disconnectSocket] are called on a freshly loaded module, nothing throws and
    the sockets made and not disconnected are exactly the one the module
    holds: never two at a time. *)
Theorem socket_module_holds_the_one_live_socket (cs : list socket_call) :
  outcome (calls cs) noSocket = Ok tt
  ∧ liveSockets (trace (calls cs) noSocket) = heldSocket (final (calls cs) noSocket)
  ∧ (length (liveSockets (trace (calls cs) noSocket)) ≤ 1)%nat.
Proof.
  unfold outcome, trace, final, run.
  destruct (calls_keep_one_socket cs noSocket [] eq_refl) as (w & new & -> & H).
  simpl in *. rewrite H. split; [done|]. split; [done|].
  unfold heldSocket. destruct (socket w); simpl; lia.
Qed.

End Sockets.

(** ** The real-time channel *)

Section Events.
Import HomePage Channel.

(** What one event does to the store. *)
Lemma receive_step (now : Z) (ev : event) (w : view) (tr : list effect) :
  ∃ w' new,
    receive now ev (w, tr) = (Ok tt, (w', tr ++ new))
    ∧ isGenerating (st (base w'))
      = isGenerating (st (base w)) && negb (isTerminal ev)
    ∧ courseConfig (st (base w')) = courseConfig (st (base w))
    ∧ userSettings (st (base w')) = userSettings (st (base w))
    ∧ courses (st (base w')) = courses (st (base w))
    ∧ currentSlide (st (base w')) = currentSlide (st (base w))
    ∧ conversationHistory (st (base w')) = conversationHistory (st (base w))
    ∧ ((∀ d, ev ≠ EvTerminal (course_complete d)) →
       currentCourse (st (base w')) = currentCourse (st (base w))
       ∧ currentSession (st (base w')) = currentSession (st (base w))).
Proof.
  destruct ev as [| | | | | |data|data|[[sid cd [sm|]]|[err]]| | |].
  all: unfold receive, on_course_progress, on_enhanced_progress, on_terminal,
         on_course_complete, on_course_error, onBase, beat, startHealthCheck,
         stopHealthCheck, HomePage.setGenerating.
  all: steps.
  all: repeat match goal with
         | |- context [if ?b then _ else _] => destruct b
         end; simpl.
  all: eexists;
    first [ exists []; split; [by rewrite app_nil_r|]
          | eexists; split; [rewrite <- ?app_assoc; reflexivity|] ].
  all: rewrite ?andb_true_r, ?andb_false_r.
  all: repeat split; try done.
  all: match goal with
       | Hne : ∀ d, _ ≠ _ |- _ => exfalso; by eapply Hne
       end.
Qed.

(** X7.  Whatever events arrive on the channel, in whatever order, no
    handler throws; the client is generating afterwards only if it was before
    and no terminal event arrived, so no later event undoes a terminal one; the
    configuration, the settings, the library, the slide number and the
    conversation are never touched; and the course and the session change only
    on ['course_complete']. *)
Theorem channel_events_never_restart_generation
    (evs : list (Z * event)) (w : view) :
  outcome (receiveAll evs) w = Ok tt
  ∧ isGenerating (st (base (final (receiveAll evs) w)))
    = isGenerating (st (base w)) && negb (existsb isTerminal evs.*2)
  ∧ courseConfig (st (base (final (receiveAll evs) w)))
    = courseConfig (st (base w))
  ∧ userSettings (st (base (final (receiveAll evs) w)))
    = userSettings (st (base w))
  ∧ courses (st (base (final (receiveAll evs) w))) = courses (st (base w))
  ∧ currentSlide (st (base (final (receiveAll evs) w)))
    = currentSlide (st (base w))
  ∧ conversationHistory (st (base (final (receiveAll evs) w)))
    = conversationHistory (st (base w))
  ∧ ((∀ now d, (now, EvTerminal (course_complete d)) ∉ evs) →
     currentCourse (st (base (final (receiveAll evs) w)))
     = currentCourse (st (base w))
     ∧ currentSession (st (base (final (receiveAll evs) w)))
       = currentSession (st (base w))).
Proof.
  unfold outcome, final, run. generalize (@nil effect) as tr. revert w.
  induction evs as [|[now ev] evs IH]; intros w tr.
  - simpl. rewrite andb_true_r. by repeat split.
  - simpl receiveAll. unfold mbind, M_bind, bind.
    destruct (receive_step now ev w tr)
      as (w1 & new & -> & Hg & Hc & Hu & Hl & Hs & Hh & Hcourse).
    destruct (IH w1 (tr ++ new)) as (Ho & Hg' & Hc' & Hu' & Hl' & Hs' & Hh' & Hcourse').
    rewrite Ho, Hg', Hc', Hu', Hl', Hs', Hh', Hg, Hc, Hu, Hl, Hs, Hh.
    simpl. rewrite negb_orb, andb_assoc.
    do 7 (split; [done|]). intros Hno.
    destruct Hcourse' as [Hcc Hcs];
      [intros now' d Hin; apply (Hno now' d); by right|].
    destruct Hcourse as [Hcc0 Hcs0];
      [intros d ->; apply (Hno now d); by left|].
    split; congruence.
Qed.

(** A course error between two progress events, while generating. *)
Lemma channel_events_never_restart_generation_at_sample :
  isGenerating
    (st (base (final (receiveAll
                        [(1, EvCourseProgress ∅);
                         (2, EvTerminal
                               (course_error {| ee_error := VStr (txt "boom") |}));
                         (3, EvCourseProgress ∅)])
                 generatingView)))
  = false.
Proof.
  destruct (channel_events_never_restart_generation
              [(1, EvCourseProgress ∅);
               (2, EvTerminal
                     (course_error {| ee_error := VStr (txt "boom") |}));
               (3, EvCourseProgress ∅)]
              generatingView) as (_ & Hgen & _).
  exact Hgen.
Defined.

(** X8.  A ['course_progress'] event always overwrites the progress and
    the step, with [undefined] when the event carries none; it replaces the
    progress details only when the event has [details], [current_slide] or
    [current_image], and the statistics only when it has [statistics]:
    otherwise the ones of an earlier event stay on display. *)
Theorem course_progress_keeps_details_it_does_not_carry
    (now : Z) (data : gmap string value) (w : view) :
  progress (st (base (final (on_course_progress now data) w)))
  = field data "progress"
  ∧ currentStep (st (base (final (on_course_progress now data) w)))
    = field data "step"
  ∧ (truthy (field data "details") = false →
     truthy (field data "current_slide") = false →
     truthy (field data "current_image") = false →
     progressDetails (base (final (on_course_progress now data) w))
     = progressDetails (base w))
  ∧ (truthy (field data "details") = true
     ∨ truthy (field data "current_slide") = true
     ∨ truthy (field data "current_image") = true →
     ∃ details,
       progressDetails (base (final (on_course_progress now data) w))
       = VObj details
       ∧ details !! "stage" = Some (field data "stage")
       ∧ details !! "total_slides" = Some (field data "total_slides"))
  ∧ (truthy (field data "statistics") = false →
     processingStats (final (on_course_progress now data) w)
     = processingStats w).
Proof.
  unfold final, run, on_course_progress, beat. steps.
  destruct (truthy (field data "details")) eqn:Hd;
    destruct (truthy (field data "current_slide")) eqn:Hs;
    destruct (truthy (field data "current_image")) eqn:Hi;
    destruct (truthy (field data "statistics")) eqn:Ht; simpl.
  all: repeat split; try done; try (intros [?|[?|?]]; done).
  all: try (intros _; eexists; split; [reflexivity|split; reflexivity]).
Qed.

(** An event that carries a progress and nothing else. *)
Lemma course_progress_keeps_details_it_does_not_carry_at_sample :
  progressDetails
    (base (final (on_course_progress 1 {[ "progress" := VNum 50 ]})
             generatingView))
  = progressDetails (base generatingView).
Proof.
  destruct (course_progress_keeps_details_it_does_not_carry
              1 {[ "progress" := VNum 50 ]} generatingView)
    as (_ & _ & Hkeep & _).
  exact (Hkeep eq_refl eq_refl eq_refl).
Defined.

End Events.

(** ** The home page, continued *)

Section Starting.
Import HomePage.

(** [handleStartGeneration] past its guard, with the socket connected. *)
Lemma handleStartGeneration_answered cfg e t p :
  cfg !! "topic" = Some (VStr t) → ¬ blank t → reaches_server e →
  ∃ pre,
    pre = SetGenerating true
          :: (if socket_connected e then [] else [SocketConnect])
             ++ [PostGenerateCourse cfg]
    ∧ run (handleStartGeneration cfg e) p
      = match generate e with
        | Ok data =>
            if truthy (responseSession data)
            then (Ok tt,
                  (with_st (setCurrentSession (responseSession data))
                     (with_st (AppStore.setGenerating true) p),
                   pre ++ [SocketEmitJoin (responseSession data)]))
            else (Ok tt, (with_st (AppStore.setGenerating true) p, pre))
        | Throw err =>
            (Ok tt,
             (with_st (AppStore.setGenerating false)
                (with_st (AppStore.setGenerating true) p),
              pre ++ [SetGenerating false; Toast failure (failureToast err)]))
        end.
Proof.
  intros Hcfg Hb Hyes. rewrite <- trim_nil in Hb. eexists. split; [reflexivity|].
  unfold run, handleStartGeneration, mbind, M_bind, bind, await at 1.
  rewrite (topic_trimmed_string _ _ Hcfg).
  destruct (trim t) as [|c r]; [done|]. clear Hb.
  unfold reaches_server in Hyes.
  destruct e as [sc ca cg gen]; simpl in Hyes.
  assert (Hcase : sc = true
                  ∨ sc = false ∧ (ca = true ∨ ca = false ∧ cg = connected)).
  { destruct sc, ca; intuition congruence. }
  unfold responseSession, failureToast, HomePage.setGenerating.
  destruct Hcase as [->|[-> [->|[-> ->]]]]; steps.
  all: destruct gen as [data|err]; simpl.
  all: try (destruct (truthy data) eqn:Hdata;
            [assert (get_prop data "session_id"
                     = Ok (Client.opt_prop data "session_id")) as ->
               by (by destruct data)|];
            simpl).
  all: split_tests; simpl; try reflexivity.
  all: try (rewrite Hdata in *; done).
Qed.

(** X9.  Once past its guard and with the socket connected,
    [handleStartGeneration] joins the session the server answers with, and
    stores it, exactly when the answer carries a truthy [session_id], and shows
    no toast; when the request fails it shows one toast, chosen by the error,
    resets [isGenerating], joins nothing and leaves the session as it was. *)
Theorem generation_joins_the_session_of_the_answer
    (p : page) (e : env) (t : jsstring) :
  courseConfig (st p) !! "topic" = Some (VStr t) → ¬ blank t →
  reaches_server e →
  (∀ data, generate e = Ok data →
     filter isToast (trace (handleStartGeneration (courseConfig (st p)) e) p)
     = []
     ∧ (truthy (responseSession data) = true →
        SocketEmitJoin (responseSession data)
          ∈ trace (handleStartGeneration (courseConfig (st p)) e) p
        ∧ currentSession
            (st (final (handleStartGeneration (courseConfig (st p)) e) p))
          = responseSession data)
     ∧ (truthy (responseSession data) = false →
        (∀ x, SocketEmitJoin x
              ∉ trace (handleStartGeneration (courseConfig (st p)) e) p)
        ∧ currentSession
            (st (final (handleStartGeneration (courseConfig (st p)) e) p))
          = currentSession (st p)))
  ∧ (∀ err, generate e = Throw err →
     filter isToast (trace (handleStartGeneration (courseConfig (st p)) e) p)
     = [Toast failure (failureToast err)]
     ∧ isGenerating
         (st (final (handleStartGeneration (courseConfig (st p)) e) p))
       = false
     ∧ (∀ x, SocketEmitJoin x
             ∉ trace (handleStartGeneration (courseConfig (st p)) e) p)
     ∧ currentSession
         (st (final (handleStartGeneration (courseConfig (st p)) e) p))
       = currentSession (st p)).
Proof.
  intros Hcfg Hb Hyes. unfold trace, final.
  destruct (handleStartGeneration_answered _ e t p Hcfg Hb Hyes)
    as (pre & -> & ->).
  split.
  - intros data ->. destruct (truthy (responseSession data)) eqn:Hs; simpl.
    + split; [by destruct (socket_connected e)|]. split; [|done].
      intros _. split; [|done]. destruct (socket_connected e); set_solver.
    + split; [by destruct (socket_connected e)|]. split; [done|].
      intros _. split; [|done]. destruct (socket_connected e); set_solver.
  - intros err ->. simpl.
    split; [by destruct (socket_connected e)|]. split; [done|].
    split; [|done]. destruct (socket_connected e); set_solver.
Qed.

(** The topic "graphs": joined when the server answers, a server-error
    toast when it answers 500. *)
Lemma generation_joins_the_session_of_the_answer_at_samples :
  SocketEmitJoin (VStr (txt "s-1"))
    ∈ trace (handleStartGeneration (courseConfig (st (asking "graphs"))) online)
            (asking "graphs")
  ∧ filter isToast
      (trace (handleStartGeneration (courseConfig (st (asking "graphs")))
                failing500) (asking "graphs"))
    = [Toast failure ServerError].
Proof.
  assert (Hnb : ¬ blank (txt "graphs")).
  { intros Hb. inversion Hb as [|? ? Hc]. vm_compute in Hc. discriminate. }
  split.
  - destruct (generation_joins_the_session_of_the_answer
                (asking "graphs") online (txt "graphs") eq_refl Hnb
                (or_introl eq_refl)) as [Hok _].
    destruct (Hok _ eq_refl) as (_ & Hjoin & _).
    exact (proj1 (Hjoin eq_refl)).
  - destruct (generation_joins_the_session_of_the_answer
                (asking "graphs") failing500 (txt "graphs") eq_refl Hnb
                (or_introl eq_refl)) as [_ Hfail].
    exact (proj1 (Hfail _ eq_refl)).
Defined.

(** Past its guard [handleStartGeneration] sets [isGenerating] first and
    never asks for a topic. *)
Lemma handleStartGeneration_past_guard cfg e t p :
  cfg !! "topic" = Some (VStr t) → ¬ blank t →
  ∃ rest, trace (handleStartGeneration cfg e) p = SetGenerating true :: rest
          ∧ Toast failure EnterTopic ∉ rest.
Proof.
  intros Hcfg Hb. rewrite <- trim_nil in Hb.
  unfold trace, run, handleStartGeneration, mbind, M_bind, bind, await at 1.
  rewrite (topic_trimmed_string _ _ Hcfg).
  destruct (trim t) as [|c r]; [done|]. clear Hb.
  unfold HomePage.setGenerating, wait_for_connection.
  destruct e as [[] [] cg gen]; steps.
  all: try destruct cg as [|err'|]; simpl.
  all: try (destruct gen as [data|err]; simpl).
  all: try (destruct (truthy data) eqn:Hdata;
            [destruct (get_prop_truthy data "session_id" Hdata) as [sid ->]|];
            simpl).
  all: split_tests; simpl.
  all: eexists; (split; [reflexivity|]); set_solver.
Qed.

(** X10.  When the Generate button is enabled, the guard of
    [handleStartGeneration] lets the click through: no "enter a topic" toast,
    and [isGenerating] is set first.  When the topic is missing or is not a
    text, the click throws a TypeError that nothing catches, having done
    nothing. *)
Theorem enabled_button_passes_the_guard (p : page) (e : env) :
  (generate_disabled (st p) = Ok false →
     (Toast failure EnterTopic
        ∉ trace (handleStartGeneration (courseConfig (st p)) e) p)
     ∧ (∃ rest, trace (handleStartGeneration (courseConfig (st p)) e) p
                = SetGenerating true :: rest))
  ∧ ((∀ t, courseConfig (st p) !! "topic" ≠ Some (VStr t)) →
     run (handleStartGeneration (courseConfig (st p)) e) p
     = (Throw TypeError, (p, []))).
Proof.
  split.
  - unfold generate_disabled. intros Hen.
    destruct (isGenerating (st p)); [done|].
    destruct (topic_trimmed (courseConfig (st p))) as [t'|] eqn:Htopic; [|done].
    unfold topic_trimmed in Htopic.
    destruct (courseConfig (st p) !! "topic") as [[| | | |t| |]|] eqn:Hcfg;
      try done.
    injection Htopic as <-. injection Hen as Hen.
    apply negb_false_iff in Hen.
    assert (Hnb : ¬ blank t).
    { intros Hb. apply truthy_trim in Hb. congruence. }
    destruct (handleStartGeneration_past_guard _ e t p Hcfg Hnb)
      as (rest & -> & Hno). split; [|by exists rest].
    intros Hin. by apply elem_of_cons in Hin as [[=]|Hin].
  - intros Hno. unfold run, handleStartGeneration, mbind, M_bind, bind, await.
    unfold topic_trimmed.
    destruct (courseConfig (st p) !! "topic") as [[| | | |t| |]|] eqn:Hcfg;
      try done.
    by destruct (Hno t).
Qed.

(** The topic "graphs" enables the button. *)
Lemma enabled_button_passes_the_guard_at_sample :
  ∃ rest,
    trace (handleStartGeneration (courseConfig (st (asking "graphs"))) online)
      (asking "graphs")
    = SetGenerating true :: rest.
Proof.
  exact (proj2 (proj1 (enabled_button_passes_the_guard (asking "graphs") online)
                  eq_refl)).
Defined.

End Starting.

(** ** The library page *)

Section Library2.
Import LibraryPage.

(** X11.  [handleDeleteCourse] always asks first.  If the user declines it
    does nothing more: no request, the same library.  If the user agrees it
    sends the delete request, and removes the course from the library only when
    that request succeeds; when it fails the library is unchanged and a failure
    is reported.  It never throws. *)
Theorem course_leaves_library_only_after_server_deleted_it
    (sessionId : jsstring) (e : env) (p : page) :
  outcome (handleDeleteCourse sessionId e) p = Ok tt
  ∧ (confirmed e = false →
     final (handleDeleteCourse sessionId e) p = p
     ∧ trace (handleDeleteCourse sessionId e) p = [Confirm])
  ∧ (confirmed e = true → delete_course e = Ok tt →
     st (final (handleDeleteCourse sessionId e) p) = removeCourse sessionId (st p)
     ∧ trace (handleDeleteCourse sessionId e) p
       = [Confirm; DeleteCourse sessionId; Toast success CourseDeleted])
  ∧ (∀ err, confirmed e = true → delete_course e = Throw err →
     final (handleDeleteCourse sessionId e) p = p
     ∧ trace (handleDeleteCourse sessionId e) p
       = [Confirm; DeleteCourse sessionId; Toast failure FailedToDelete]).
Proof.
  unfold outcome, final, trace, run, handleDeleteCourse. steps.
  destruct (confirmed e), (delete_course e) as [[]|err]; simpl.
  all: repeat split; try done; try (by destruct p).
  all: by intros ? _ [= <-]; destruct p.
Qed.

(** Deleting the first of the two courses of [browsing]. *)
Lemma course_leaves_library_only_after_server_deleted_it_at_sample :
  st (final (handleDeleteCourse (txt "a") agreeing) browsing)
  = removeCourse (txt "a") (st browsing)
  ∧ trace (handleDeleteCourse (txt "a") agreeing) browsing
    = [Confirm; DeleteCourse (txt "a"); Toast success CourseDeleted].
Proof.
  destruct (course_leaves_library_only_after_server_deleted_it
              (txt "a") agreeing browsing) as (_ & _ & Hok & _).
  exact (Hok eq_refl eq_refl).
Defined.

Lemma sanitize_safe (title : jsstring) : Forall safeChar (sanitize title).
Proof.
  unfold sanitize. apply Forall_fmap, Forall_forall. intros c _. simpl.
  unfold safeChar. destruct (alphanumeric c) eqn:Hc; auto.
Qed.

Lemma sanitize_fixes_safe (title : jsstring) :
  Forall (fun c => alphanumeric c = true) title → sanitize title = title.
Proof.
  unfold sanitize. induction 1 as [|c l Hc _ IH]; [done|].
  simpl. fold (sanitize l) in *. by rewrite Hc, IH.
Qed.

(** X12.  The file name of an exported course is the title with every code
    unit outside [a-zA-Z0-9] replaced by an underscore, then [.zip]: as long as
    the title, made of letters, digits and underscores only, hence free of
    slashes, backslashes and dots; a title of letters and digits is kept;
    sanitising twice is sanitising once.  The download happens only after the
    export request succeeded, under that name; a title that is not a text
    makes the export fail after the request was sent. *)
Theorem export_file_name_is_sanitised (title : jsstring) :
  length (sanitize title) = length title
  ∧ Forall safeChar (sanitize title)
  ∧ (∀ c, c ∈ sanitize title → c ≠ 47%N ∧ c ≠ 92%N ∧ c ≠ 46%N ∧ c ≠ 0%N)
  ∧ (Forall (fun c => alphanumeric c = true) title → sanitize title = title)
  ∧ sanitize (sanitize title) = sanitize title
  ∧ (∀ sid e p data,
       export_course e = Ok data →
       trace (handleExportCourse sid (VStr title) e) p
       = [GetExport sid; Download data (sanitize title ++ txt ".zip");
          Toast success CourseExported])
  ∧ (∀ sid e p err,
       export_course e = Throw err →
       trace (handleExportCourse sid (VStr title) e) p
       = [GetExport sid; Toast failure FailedToExport])
  ∧ (∀ sid e p other,
       (∀ t, other ≠ VStr t) →
       ∀ k data name,
         (Download data name ∉ trace (handleExportCourse sid other e) p)
         ∧ (Toast success k ∉ trace (handleExportCourse sid other e) p)).
Proof.
  split; [apply length_fmap|]. split; [apply sanitize_safe|].
  split; [|split; [apply sanitize_fixes_safe|split; [|split; [|split]]]].
  - intros c Hin. pose proof (sanitize_safe title) as Hs.
    rewrite Forall_forall in Hs. destruct (Hs c Hin) as [Ha| ->].
    + repeat split; intros ->; vm_compute in Ha; discriminate.
    + repeat split; discriminate.
  - unfold sanitize. rewrite <- list_fmap_compose. apply list_fmap_ext.
    intros _ c _. simpl. destruct (alphanumeric c) eqn:Hc; [by rewrite Hc|].
    reflexivity.
  - intros sid e p data He.
    unfold trace, run, handleExportCourse, exportFilename. steps.
    by rewrite He.
  - intros sid e p err He.
    unfold trace, run, handleExportCourse. steps. by rewrite He.
  - intros sid e p other Hno k data name.
    unfold trace, run, handleExportCourse. steps.
    destruct (export_course e); simpl;
      destruct other; simpl; try (by destruct (Hno _)); split; set_solver.
Qed.

(** A title with a colon and blanks. *)
Lemma export_file_name_is_sanitised_at_sample :
  trace (handleExportCourse (txt "a") (VStr (txt "Graphs: an intro")) agreeing)
    browsing
  = [GetExport (txt "a");
     Download [80; 75]%N (txt "Graphs__an_intro.zip");
     Toast success CourseExported].
Proof.
  destruct (export_file_name_is_sanitised (txt "Graphs: an intro"))
    as (_ & _ & _ & _ & _ & Hok & _).
  exact (Hok (txt "a") agreeing browsing _ eq_refl).
Defined.

(** X13.  [loadCourses] ends with [loading] cleared whether the request
    succeeds or not, replaces the library on success and keeps it on failure.
    [handleImportCourse] reloads the list only after a successful import, and
    then reports success even when the reload fails; when the import fails the
    list is not requested and the library is unchanged. *)
Theorem library_reload_and_import (sortBy : value) (file : blob) (e : env)
    (p : page) :
  outcome (loadCourses sortBy e) p = Ok tt
  ∧ loading (final (loadCourses sortBy e) p) = false
  ∧ (∀ data, list_courses e = Ok data →
       st (final (loadCourses sortBy e) p) = setCourses data (st p))
  ∧ (∀ err, list_courses e = Throw err →
       st (final (loadCourses sortBy e) p) = st p
       ∧ trace (loadCourses sortBy e) p
         = [GetCourses sortBy; Toast failure FailedToLoad])
  ∧ outcome (handleImportCourse sortBy file e) p = Ok tt
  ∧ (∀ err, import_course e = Throw err →
       final (handleImportCourse sortBy file e) p = p
       ∧ trace (handleImportCourse sortBy file e) p
         = [PostImport file; Toast failure FailedToImport])
  ∧ (∀ err, import_course e = Ok tt → list_courses e = Throw err →
       st (final (handleImportCourse sortBy file e) p) = st p
       ∧ trace (handleImportCourse sortBy file e) p
         = [PostImport file; GetCourses sortBy; Toast failure FailedToLoad;
            Toast success CourseImported])
  ∧ (∀ data, import_course e = Ok tt → list_courses e = Ok data →
       st (final (handleImportCourse sortBy file e) p) = setCourses data (st p)
       ∧ trace (handleImportCourse sortBy file e) p
         = [PostImport file; GetCourses sortBy; Toast success CourseImported]).
Proof.
  unfold outcome, final, trace, run, handleImportCourse, loadCourses. steps.
  destruct (import_course e) as [[]|ierr], (list_courses e) as [data|lerr];
    simpl.
  all: repeat split; try done; try (by destruct p).
  all: try (by intros ? [= <-]).
  all: try (by intros ? _ [= <-]).
  all: try (intros ? [= <-]; split; [by destruct p|done]).
  all: congruence.
Qed.

(** An import into [browsing], after which the server lists one course. *)
Lemma library_reload_and_import_at_sample :
  st (final (handleImportCourse (VStr (txt "date")) [80; 75]%N agreeing)
        browsing)
  = setCourses [untitled "b"] (st browsing).
Proof.
  destruct (library_reload_and_import (VStr (txt "date")) [80; 75]%N agreeing
              browsing) as (_ & _ & _ & _ & _ & _ & _ & Hok).
  exact (proj1 (Hok _ eq_refl eq_refl)).
Defined.

End Library2.

(** ** The settings dialog *)

Section Saving.
Import SettingsModal.

(** X14.  [handleSave] merges the local settings into the store's, posts
    the merged settings, and then reports success and closes, also when the
    request fails: [saveUserSettings] keeps the failure to itself.  It never
    shows the failure toast, never throws, and ends with [isSaving] cleared. *)
Theorem handleSave_reports_success_whatever_the_server_says
    (v : modal) (save : result unit) (m : modal) :
  run (handleSave v save) m
  = (Ok tt,
     (with_isSaving false
        (with_st (updateUserSettings (localSettings v)) m),
      [PostSettings (localSettings v ∪ userSettings (st m));
       ToastSaved; Close])).
Proof.
  unfold run, handleSave, saveUserSettings. steps.
  by destruct save as [[]|err].
Qed.

End Saving.

Section Aliasing.
Import SettingsModal.

(** X15.  [updateSetting] copies the outer settings object only.  For a
    path of one key the copy gets the value and nothing that existed changes.
    For a path [a.b] the value is written into the object [a] refers to, which
    the previous settings share: read through the previous settings, [a.b] is
    the new value too, while both outer objects are as before.  When the path
    leads through a property that is missing, the updater throws a TypeError
    and nothing that existed changes. *)
Theorem updateSetting_writes_into_shared_objects
    (h : heap) (prev : positive) (o : gmap string cell) (x : atom) :
  h !! prev = Some o →
  (∀ path k, splitDots path = [k] →
     ∃ h', updateSetting path x prev h = (Ok (fresh (dom h)), h')
           ∧ h' !! fresh (dom h) = Some (<[k := Prim x]> o)
           ∧ (∀ l, is_Some (h !! l) → h' !! l = h !! l))
  ∧ (∀ path a b l inner,
       splitDots path = [a; b] → o !! a = Some (Ref l) →
       h !! l = Some inner → l ≠ prev →
       ∃ h', updateSetting path x prev h = (Ok (fresh (dom h)), h')
             ∧ h' !! l = Some (<[b := Prim x]> inner)
             ∧ h' !! prev = Some o
             ∧ h' !! fresh (dom h) = Some o
             ∧ lookupPath h' (Ref prev) [a; b] = Ok (Prim x)
             ∧ lookupPath h' (Ref (fresh (dom h))) [a; b] = Ok (Prim x))
  ∧ (∀ path a b rest,
       splitDots path = a :: b :: rest → o !! a = None →
       ∃ h', updateSetting path x prev h = (Throw TypeError, h')
             ∧ (∀ l, is_Some (h !! l) → h' !! l = h !! l)).
Proof.
  intros Hprev.
  assert (Hfresh : h !! fresh (dom h) = None).
  { apply not_elem_of_dom, is_fresh. }
  assert (Hold : ∀ l, is_Some (h !! l) → l ≠ fresh (dom h)).
  { intros l [y Hl] ->. congruence. }
  unfold updateSetting. rewrite Hprev. simpl default.
  split; [|split].
  - intros path k ->. simpl. rewrite lookup_insert_eq. simpl.
    eexists. split; [reflexivity|]. split; [by rewrite lookup_insert_eq|].
    intros l Hl. rewrite !lookup_insert_ne; [done| |];
      intros Heq; by apply (Hold _ Hl).
  - intros path a b l inner -> Ha Hl Hne.
    assert (Hnew : l ≠ fresh (dom h)) by (apply Hold; eauto).
    assert (Hpn : prev ≠ fresh (dom h)) by (apply Hold; eauto).
    simpl. rewrite lookup_insert_eq. simpl. rewrite Ha. simpl.
    rewrite lookup_insert_ne by done. rewrite Hl. simpl.
    eexists. split; [reflexivity|].
    assert (H1 : <[l:=<[b:=Prim x]> inner]> (<[fresh (dom h):=o]> h) !! l
                 = Some (<[b:=Prim x]> inner)) by apply lookup_insert_eq.
    assert (H2 : <[l:=<[b:=Prim x]> inner]> (<[fresh (dom h):=o]> h) !! prev
                 = Some o).
    { rewrite lookup_insert_ne by congruence.
      rewrite lookup_insert_ne by congruence. exact Hprev. }
    assert (H3 : <[l:=<[b:=Prim x]> inner]> (<[fresh (dom h):=o]> h)
                   !! fresh (dom h) = Some o).
    { rewrite lookup_insert_ne by congruence. apply lookup_insert_eq. }
    rewrite H2, H3. simpl. rewrite Ha. simpl. rewrite H1. simpl.
    rewrite lookup_insert_eq. done.
  - intros path a b rest -> Ha.
    simpl. rewrite lookup_insert_eq. simpl. rewrite Ha. simpl.
    destruct rest; simpl.
    all: eexists; split; [reflexivity|].
    all: intros l Hl; rewrite lookup_insert_ne; [done|];
      intros Heq; by apply (Hold _ Hl).
Qed.

(** Changing [tts.voice] in the settings of [settingsHeap]: the previous
    settings, object 1, read the new voice. *)
Lemma updateSetting_writes_into_shared_objects_at_sample :
  ∃ h', updateSetting "tts.voice" (AStr (txt "anna")) 1 settingsHeap
        = (Ok (fresh (dom settingsHeap)), h')
        ∧ lookupPath h' (Ref 1) ["tts"; "voice"] = Ok (Prim (AStr (txt "anna"))).
Proof.
  destruct (updateSetting_writes_into_shared_objects settingsHeap 1
              {[ "tts" := Ref 2; "name" := Prim (AStr (txt "me")) ]}
              (AStr (txt "anna")) eq_refl) as (_ & Hnested & _).
  destruct (Hnested "tts.voice" "tts" "voice" 2%positive
              {[ "voice" := Prim (AStr (txt "default")) ]}
              eq_refl eq_refl eq_refl) as (h' & Hrun & _ & _ & _ & Hread & _);
    [discriminate|].
  exists h'. by split.
Defined.

End Aliasing.

(** ** The presentation page, continued *)

Section Sequencing.
Import PresentationPage.

Lemma maxSlide_le_lastSlideIndex s : maxSlide s ≤ lastSlideIndex s.
Proof.
  unfold maxSlide, lastSlideIndex, slidesLength.
  destruct (currentCourse s) as [[sid ttl [l|] au]|]; simpl; try lia.
  destruct (Z.eqb_spec (Z.of_nat (length l) - 1) 0); lia.
Qed.

Lemma lastSlideIndex_course s s' :
  currentCourse s' = currentCourse s → lastSlideIndex s' = lastSlideIndex s.
Proof. unfold lastSlideIndex. by intros ->. Qed.

(** One click on a slide button. *)
Lemma handleSlideChange_step (d : direction) (p : page) (tr : list effect) :
  ∃ p' new,
    handleSlideChange d (p, tr) = (Ok tt, (p', tr ++ new))
    ∧ pausedPosition p' = 0%Q
    ∧ audioProgress (st p') = 0%Q
    ∧ manuallyResumed p' = false
    ∧ currentCourse (st p') = currentCourse (st p)
    ∧ currentSlide (st p')
      = match d with
        | next => if hasNextSlide (st p) then currentSlide (st p) + 1
                  else currentSlide (st p)
        | prev => if hasPreviousSlide (st p) then currentSlide (st p) - 1
                  else currentSlide (st p)
        end
    ∧ new = match audioRef p with Some _ => [AudioPause] | None => [] end.
Proof.
  unfold handleSlideChange, pauseAudio, live, act. steps.
  destruct (audioRef p) as [el|] eqn:Hel; simpl; destruct d; simpl.
  all: rewrite ?Hel; simpl.
  all: unfold hasNextSlide, hasPreviousSlide, maxSlide, slidesLength; simpl.
  all: repeat match goal with
         | |- context [if ?b then _ else _] => destruct b eqn:?
         end; simpl.
  all: eexists;
    first [ exists [AudioPause]; split; [reflexivity|]
          | exists []; split; [by rewrite app_nil_r|] ].
  all: repeat split; try done.
  all: simpl; unfold maxSlide, slidesLength; simpl.
  all: repeat match goal with
         | Hlt : (_ <? _) = true |- _ => apply Z.ltb_lt in Hlt
         | Hge : (_ <? _) = false |- _ => apply Z.ltb_ge in Hge
         end; lia.
Qed.

Lemma handleSlideChange_inDeck d p tr :
  inDeck (st p) → inDeck (st (handleSlideChange d (p, tr)).2.1).
Proof.
  unfold inDeck. intros Hin.
  destruct (handleSlideChange_step d p tr)
    as (p' & new & -> & _ & _ & _ & Hc & Hs & _).
  simpl. rewrite (lastSlideIndex_course _ _ Hc), Hs.
  pose proof (maxSlide_le_lastSlideIndex (st p)).
  unfold hasNextSlide, hasPreviousSlide.
  destruct d.
  - destruct (Z.ltb_spec (currentSlide (st p)) (maxSlide (st p))); lia.
  - destruct (Z.ltb_spec 0 (currentSlide (st p))); lia.
Qed.

(** X16.  Through the buttons of the player the slide number never leaves
    the deck: after any run of clicks on next and previous, starting on a slide
    of the deck, it is still one, also on a course without slides, where
    [nextSlide] alone would go to -1.  A click never throws, keeps the course,
    moves by one slide at most, and resets the saved position and the
    manual-resume flag. *)
Theorem slide_buttons_keep_the_slide_in_the_deck
    (ds : list direction) (p : page) :
  inDeck (st p) →
  outcome (slideChanges ds) p = Ok tt
  ∧ inDeck (st (final (slideChanges ds) p))
  ∧ currentCourse (st (final (slideChanges ds) p)) = currentCourse (st p)
  ∧ (ds ≠ [] →
     pausedPosition (final (slideChanges ds) p) = 0%Q
     ∧ manuallyResumed (final (slideChanges ds) p) = false)
  ∧ (∀ d, Z.abs (currentSlide (st (final (handleSlideChange d) p))
                  - currentSlide (st p)) ≤ 1).
Proof.
  intros Hin. unfold outcome, final, run.
  split; [|split; [|split; [|split]]].
  1-4: revert p Hin; generalize (@nil effect) as tr.
  1-4: induction ds as [|d ds IH]; intros tr p Hin; [by simpl|].
  1-4: simpl slideChanges; unfold mbind, M_bind, bind.
  1-4: pose proof (handleSlideChange_inDeck d p tr Hin) as Hin'.
  1-4: destruct (handleSlideChange_step d p tr)
         as (p' & new & Hrun & Hpos & _ & Hman & Hc & _ & _).
  1-4: rewrite Hrun in *; simpl in Hin'.
  - by apply IH.
  - by apply IH.
  - rewrite <- Hc. by apply IH.
  - intros _. destruct ds as [|d' ds]; [by simpl|]. by apply IH.
  - intros d. destruct (handleSlideChange_step d p [])
      as (p' & new & -> & _ & _ & _ & _ & Hs & _).
    simpl. rewrite Hs.
    destruct d; repeat match goal with
                  | |- context [if ?b then _ else _] => destruct b
                  end; lia.
Qed.

(** Next, next, previous on the empty deck. *)
Lemma slide_buttons_keep_the_slide_in_the_deck_at_empty_deck :
  inDeck (st (final (slideChanges [next; next; prev]) emptyDeckPage)).
Proof.
  refine (proj1 (proj2 (slide_buttons_keep_the_slide_in_the_deck
                          [next; next; prev] emptyDeckPage _))).
  unfold inDeck. vm_compute. split; congruence.
Defined.

End Sequencing.

Section Narration.
Import PresentationPage.

#[local] Arguments startPosition : simpl never.

(** X17.  [startSlideAudio] never throws and starts at most one playback.
    It asks for real-time speech only when the pre-generated file did not play:
    a trace never holds both the playback of a file and a speech request.
    [isPlaying] is set when something plays and is left alone otherwise.  On a
    slide without transcript, or without slide, it does nothing at all. *)
Theorem startSlideAudio_plays_once_and_falls_back
    (v : page) (e : env) (o : option Q) (p : page) :
  outcome (startSlideAudio v e o) p = Ok tt
  ∧ (length (filter isPlay (trace (startSlideAudio v e o) p)) ≤ 1)%nat
  ∧ (∀ f pos sd voice speed,
       AudioPlay (FileSrc f) pos ∈ trace (startSlideAudio v e o) p →
       PostGenerateAudio sd voice speed ∉ trace (startSlideAudio v e o) p)
  ∧ (filter isPlay (trace (startSlideAudio v e o) p) ≠ [] →
     isPlaying (st (final (startSlideAudio v e o) p)) = true)
  ∧ (filter isPlay (trace (startSlideAudio v e o) p) = [] →
     isPlaying (st (final (startSlideAudio v e o) p)) = isPlaying (st p))
  ∧ ((∀ sd, getCurrentSlideData (st p) = Some sd →
            truthy (transcript sd) = false) →
     run (startSlideAudio v e o) p = (Ok tt, (p, []))).
Proof.
  unfold outcome, final, trace, run.
  unfold startSlideAudio, playPregenerated, playGenerated, play, load,
    live, act.
  steps. branches.
  all: repeat split; try done; try (simpl; lia).
  all: try (intros; set_solver).
  all: try (intros Hno; by rewrite (Hno _ eq_refl) in *).
Qed.

(** [speakAIResponse] on any world. *)
Lemma speakAIResponse_speaking v e text w :
  ∃ q new, speakAIResponse v e text w = (Ok tt, (q, w.2 ++ new))
           ∧ (isAISpeaking q = true ↔ ∃ b, AiAudioPlay b ∈ new)
           ∧ (isAISpeaking q = true → is_Some (aiAudioRef q)).
Proof.
  destruct w as [q tr]. unfold speakAIResponse, stopAISpeech, live. steps.
  branches.
  all: eexists _, _; rewrite <- ?app_assoc; simpl.
  all: (split; [try reflexivity; rewrite app_nil_r; reflexivity|]).
  all: simpl; split; [split|]; try done.
  all: try (intros [? Hin]; exfalso; set_solver).
  all: try (intros _; by eexists).
  all: intros _;
    match goal with
    | |- context [AiAudioPlay ?x :: _] => exists x; set_solver
    end.
Qed.

(** X18.  After [speakAIResponse] the page says the AI is speaking exactly
    when the spoken answer did start playing: whenever the speech request or
    the playback fails or yields nothing, [isAISpeaking] is cleared, so the
    microphone button it disables is given back. *)
Theorem ai_is_speaking_only_while_its_answer_plays
    (v : page) (e : env) (text : value) (p : page) :
  outcome (speakAIResponse v e text) p = Ok tt
  ∧ (isAISpeaking (final (speakAIResponse v e text) p) = true
     ↔ ∃ b, AiAudioPlay b ∈ trace (speakAIResponse v e text) p)
  ∧ (isAISpeaking (final (speakAIResponse v e text) p) = true →
     is_Some (aiAudioRef (final (speakAIResponse v e text) p))).
Proof.
  unfold outcome, final, trace, run.
  destruct (speakAIResponse_speaking v e text (p, []))
    as (q & new & -> & Hiff & Href). by simpl in *.
Qed.

(** X19.  [startConversation] pauses a playing narration and saves its
    position before it asks the server, so also when the request then fails.
    The conversation becomes active, with the session the answer names, only
    when the request succeeds; when it fails the conversation state is
    untouched and a failure is reported.  It never throws. *)
Theorem conversation_starts_only_when_the_server_agrees
    (v : page) (e : env) (p : page) :
  outcome (startConversation v e) p = Ok tt
  ∧ (∀ el, isPlaying (st v) = true → audioRef p = Some el →
       pausedPosition (final (startConversation v e) p) = currentTime el
       ∧ isPlaying (st (final (startConversation v e) p)) = false
       ∧ ∃ rest, trace (startConversation v e) p = AudioPause :: rest)
  ∧ (∀ data, start_conversation e = Ok data → defined data →
       isConversationActive (st (final (startConversation v e) p)) = true
       ∧ conversationSession (final (startConversation v e) p)
         = Client.opt_prop data "conversation_session_id"
       ∧ ∀ k t, Toast k t ∉ trace (startConversation v e) p)
  ∧ (∀ err, start_conversation e = Throw err →
       isConversationActive (st (final (startConversation v e) p))
       = isConversationActive (st p)
       ∧ conversationSession (final (startConversation v e) p)
         = conversationSession p
       ∧ Toast failure FailedToStartConversation
           ∈ trace (startConversation v e) p).
Proof.
  unfold outcome, final, trace, run, startConversation, live, act. steps.
  split; [by branches|]. split; [|split].
  - intros el Hplay Hel. rewrite Hel, Hplay. steps. branches.
    all: repeat split; try done; by eexists.
  - intros data -> Hd. rewrite (get_prop_defined _ _ Hd). branches.
    all: repeat split; try done; intros; set_solver.
  - intros err ->. branches.
    all: repeat split; try done; set_solver.
Qed.

(** Starting a conversation while the narration plays. *)
Lemma conversation_starts_only_when_the_server_agrees_at_sample :
  pausedPosition (final (startConversation playingPage answering) playingPage)
  = 7 # 2
  ∧ isConversationActive
      (st (final (startConversation playingPage answering) playingPage))
    = true.
Proof.
  destruct (conversation_starts_only_when_the_server_agrees
              playingPage answering playingPage) as (_ & Hpause & Hok & _).
  split.
  - exact (proj1 (Hpause _ eq_refl eq_refl)).
  - refine (proj1 (Hok _ eq_refl _)). split; discriminate.
Defined.

(** X20.  [endConversation] stops a running recording and the AI's speech
    whatever happens next.  Without a conversation session it sends no request.
    When the end request fails, the conversation stays active with its session,
    the dialog stays as it was and a failure is reported; otherwise the
    conversation is closed and the session forgotten.  It never throws. *)
Theorem conversation_ends_only_when_the_server_agrees
    (v : page) (e : env) (p : page) :
  outcome (endConversation v e) p = Ok tt
  ∧ aiAudioRef (final (endConversation v e) p) = None
  ∧ (isRecording v = true → mediaRecorderRef p = true →
     isRecording (final (endConversation v e) p) = false
     ∧ ∃ rest, trace (endConversation v e) p = RecorderStop :: rest)
  ∧ (truthy (conversationSession v) = false →
     (∀ x, PostConversationEnd x ∉ trace (endConversation v e) p)
     ∧ isConversationActive (st (final (endConversation v e) p)) = false
     ∧ conversationSession (final (endConversation v e) p) = VNull)
  ∧ (truthy (conversationSession v) = true → end_conversation e = Ok tt →
     PostConversationEnd (conversationSession v)
       ∈ trace (endConversation v e) p
     ∧ isConversationActive (st (final (endConversation v e) p)) = false
     ∧ conversationSession (final (endConversation v e) p) = VNull)
  ∧ (∀ err, truthy (conversationSession v) = true →
       end_conversation e = Throw err →
       isConversationActive (st (final (endConversation v e) p))
       = isConversationActive (st p)
       ∧ conversationSession (final (endConversation v e) p)
         = conversationSession p
       ∧ showResumeOptions (final (endConversation v e) p)
         = showResumeOptions p
       ∧ Toast failure FailedToEndConversation
           ∈ trace (endConversation v e) p).
Proof.
  unfold outcome, final, trace, run, endConversation, stopAISpeech, live, act.
  steps.
  split; [by branches|]. split; [by branches|]. split; [|split; [|split]].
  - intros Hr Hm. branches. all: try congruence.
    all: split; [done|by eexists].
  - intros Hs. branches. all: try congruence.
    all: repeat split; try done; intros; set_solver.
  - intros Hs He. branches. all: try congruence.
    all: repeat split; try done; set_solver.
  - intros err Hs He. branches. all: try congruence.
    all: repeat split; try done; set_solver.
Qed.

(** An end request that fails leaves the session of [watching]; one that
    succeeds was sent with it. *)
Lemma conversation_ends_only_when_the_server_agrees_at_sample :
  conversationSession (final (endConversation watching failing_to_end) watching)
  = conversationSession watching
  ∧ PostConversationEnd (conversationSession watching)
      ∈ trace (endConversation watching answering) watching.
Proof.
  destruct (conversation_ends_only_when_the_server_agrees
              watching failing_to_end watching)
    as (_ & _ & _ & _ & _ & Hfail).
  destruct (conversation_ends_only_when_the_server_agrees
              watching answering watching)
    as (_ & _ & _ & _ & Hok & _).
  split.
  - exact (proj1 (proj2 (Hfail _ eq_refl eq_refl))).
  - exact (proj1 (Hok eq_refl eq_refl)).
Defined.

(** X21.  When [processRecording] fails.  If the transcription request
    fails, or answers with something that is no text, nothing is appended and a
    failure is reported.  If the question was heard but asking the AI fails,
    the history keeps the question, without an answer, and a failure is
    reported.  [processRecording] never throws. *)
Theorem failed_recording_keeps_at_most_the_question
    (v : page) (e : env) (audioBlob : blob) (p : page) :
  outcome (processRecording v e audioBlob) p = Ok tt
  ∧ (∀ err, transcribe e = Throw err →
       st (final (processRecording v e audioBlob) p) = st p
       ∧ trace (processRecording v e audioBlob) p
         = [PostTranscribe audioBlob; Toast failure FailedToProcess])
  ∧ (∀ data text, transcribe e = Ok data →
       transcriptionText data = Ok text → truthy text = true →
       (∀ t, text ≠ VStr t) →
       st (final (processRecording v e audioBlob) p) = st p
       ∧ trace (processRecording v e audioBlob) p
         = [PostTranscribe audioBlob; Toast failure FailedToProcess])
  ∧ (∀ data t err, transcribe e = Ok data →
       transcriptionText data = Ok (VStr t) → ¬ blank t →
       ask e = Throw err →
       conversationHistory (st (final (processRecording v e audioBlob) p))
       = conversationHistory (st p)
         ++ [ {| role := "user"; content := VStr t;
                 timestamp := now_question e |} ]
       ∧ Toast failure FailedToProcess
           ∈ trace (processRecording v e audioBlob) p).
Proof.
  split; [|split; [|split]].
  - unfold outcome, run, processRecording, live, act. steps. branches.
    all: repeat match goal with
           | u : unit |- _ => destruct u
           end; try done.
    all: match goal with
         | H : speakAIResponse ?v' ?e' ?x ?w = _ |- _ =>
             destruct (speakAIResponse_speaking v' e' x w)
               as (q' & new & Hrun & _);
             rewrite Hrun in H; inversion H
         end.
  - intros err Htr. unfold final, trace, run, processRecording, live, act.
    steps. by rewrite Htr.
  - intros data text Htr Htext Ht Hno.
    unfold final, trace, run, processRecording, live, act. steps.
    rewrite Htr. simpl. rewrite Htext. simpl.
    unfold spoken.
    destruct text as [| |b|q|t|items|fields];
      try (by unfold truthy in Ht); try (by destruct (Hno t));
      try (by rewrite Ht); done.
  - intros data t err Htr Htext Hnb Hask.
    unfold final, trace, run, processRecording, live, act. steps.
    rewrite Htr. simpl. rewrite Htext. simpl.
    unfold spoken. change (truthy (VStr t) && truthy (VStr (trim t)))
      with (truthy (VStr t) && truthy (VStr (trim t))).
    assert (Hh : truthy (VStr t) && truthy (VStr (trim t)) = true).
    { assert (truthy (VStr (trim t)) = true) as ->.
      { apply not_false_iff_true. by rewrite truthy_trim. }
      destruct t; [|done]. exfalso. apply Hnb. constructor. }
    simpl. rewrite Hh. simpl. rewrite Hask. simpl. split; [done|set_solver].
Qed.

(** The question is heard, the AI does not answer. *)
Lemma failed_recording_keeps_at_most_the_question_at_sample :
  conversationHistory
    (st (final (processRecording watching not_answering [1; 2; 3]%N) watching))
  = [ {| role := "user"; content := VStr (txt "why a tree?");
         timestamp := txt "2025-01-01T10:00:00.000Z" |} ].
Proof.
  destruct (failed_recording_keeps_at_most_the_question
              watching not_answering [1; 2; 3]%N watching)
    as (_ & _ & _ & Hask).
  refine (proj1 (Hask _ (txt "why a tree?") _ eq_refl eq_refl _ eq_refl)).
  intros Hb. inversion Hb as [|? ? Hc]. vm_compute in Hc. discriminate.
Defined.

Lemma handleSlideChange_frame (d : direction) (p : page) (tr : list effect) :
  isConversationActive (st (handleSlideChange d (p, tr)).2.1)
  = isConversationActive (st p)
  ∧ showResumeOptions (handleSlideChange d (p, tr)).2.1 = showResumeOptions p.
Proof.
  unfold handleSlideChange, pauseAudio, live, act. steps.
  destruct (audioRef p) as [el|] eqn:Hel; simpl; destruct d; simpl.
  all: rewrite ?Hel; simpl.
  all: repeat match goal with
         | |- context [if ?b then _ else _] => destruct b eqn:?
         end; simpl.
  all: by split.
Qed.

(** X22.  The narration is not started twice.  After [resumeAudio] the
    effect that starts the narration on its own is off.  After an
    [endConversation] that met no failure, on a loaded course with the dialog
    closed and no manual resume before, exactly one of the two happens: the
    resume dialog is shown, or the narration starts on its own.  After a click
    on a slide button, with a course loaded, outside a conversation and with
    the dialog closed, it starts on its own. *)
Theorem narration_restarts_in_one_way_only
    (v : page) (e : env) (p : page) :
  (∀ fromBeginning, autoStart (final (resumeAudio v e fromBeginning) p) = false)
  ∧ (ends_cleanly v e → is_Some (currentCourse (st p)) →
     showResumeOptions p = false → manuallyResumed p = false →
     autoStart (final (endConversation v e) p)
     = negb (showResumeOptions (final (endConversation v e) p))
     ∧ showResumeOptions (final (endConversation v e) p)
       = positive (pausedPosition v))
  ∧ (∀ d, is_Some (currentCourse (st p)) →
       isConversationActive (st p) = false → showResumeOptions p = false →
       autoStart (final (handleSlideChange d) p) = true).
Proof.
  split; [|split].
  - intros fromBeginning. unfold final, run, resumeAudio. steps.
    destruct fromBeginning; simpl.
    all: match goal with
         | |- context [startSlideAudio ?v' ?e' ?o ?w] =>
             destruct (startSlideAudio_run v' e' o w)
               as (q & new & -> & _ & Hshow & Hman & _)
         end; simpl in *.
    all: unfold autoStart; rewrite Hman; destruct (currentCourse (st q));
      by rewrite ?andb_false_r.
  - unfold ends_cleanly. intros Hend [c Hc] Hshow Hman.
    unfold final, run, endConversation, stopAISpeech, live, act, autoStart.
    steps.
    destruct (truthy (conversationSession v)) eqn:Hs;
      [rewrite (Hend eq_refl)|]; branches.
    all: rewrite ?Hc, ?Hshow, ?Hman in *; simpl; try done.
    all: by destruct (positive (pausedPosition v)).
  - intros d [c Hc] Hact Hshow. unfold final, run, autoStart.
    pose proof (handleSlideChange_frame d p []) as (Ha & Hs).
    destruct (handleSlideChange_step d p [])
      as (p' & new & Hrun & _ & _ & Hman & Hcourse & _ & _).
    rewrite Hrun in *. simpl in *.
    by rewrite Hcourse, Hc, Hman, Ha, Hs, Hact, Hshow.
Qed.

(** After the conversation of [watching], paused at 2.5 s, the dialog is
    shown and the narration does not start on its own. *)
Lemma narration_restarts_in_one_way_only_at_sample :
  autoStart (final (endConversation watching answering) watching) = false
  ∧ showResumeOptions (final (endConversation watching answering) watching)
    = true.
Proof.
  destruct (narration_restarts_in_one_way_only watching answering watching)
    as (_ & Hend & _).
  destruct Hend as (Hauto & Hshow).
  - intros _. reflexivity.
  - eexists. reflexivity.
  - reflexivity.
  - reflexivity.
  - split; [rewrite Hauto, Hshow | rewrite Hshow]; reflexivity.
Defined.

(** X23.  The play button acts on what its render saw.  Seen playing, it only
    pauses: nothing is played, and with the element mounted the position of
    the element is saved, [isPlaying] is cleared and the one effect is the
    pause.  Seen stopped, it never pauses, leaves the saved position alone and
    starts every playback at the position its render saw.  So a press in the
    render after a pause resumes where the pause stopped. *)
Theorem play_button_pauses_then_resumes (v : page) (e : env) (p : page) :
  outcome (togglePlayPause v e) p = Ok tt
  ∧ (isPlaying (st v) = true →
     (∀ s pos, AudioPlay s pos ∉ trace (togglePlayPause v e) p)
     ∧ (∀ el, audioRef p = Some el →
          pausedPosition (final (togglePlayPause v e) p) = currentTime el
          ∧ isPlaying (st (final (togglePlayPause v e) p)) = false
          ∧ trace (togglePlayPause v e) p = [AudioPause]
          ∧ (∀ v' e' s pos,
               isPlaying (st v') = false →
               pausedPosition v'
               = pausedPosition (final (togglePlayPause v e) p) →
               AudioPlay s pos
               ∈ trace (togglePlayPause v' e') (final (togglePlayPause v e) p) →
               pos = currentTime el)))
  ∧ (isPlaying (st v) = false →
     (AudioPause ∉ trace (togglePlayPause v e) p)
     ∧ pausedPosition (final (togglePlayPause v e) p) = pausedPosition p
     ∧ (∀ s pos, AudioPlay s pos ∈ trace (togglePlayPause v e) p →
                 pos = pausedPosition v)).
Proof.
  assert (Hstopped : ∀ (v0 : page) (e0 : env) (q : page),
    isPlaying (st v0) = false →
    outcome (togglePlayPause v0 e0) q = Ok tt
    ∧ (AudioPause ∉ trace (togglePlayPause v0 e0) q)
    ∧ pausedPosition (final (togglePlayPause v0 e0) q) = pausedPosition q
    ∧ (∀ s pos, AudioPlay s pos ∈ trace (togglePlayPause v0 e0) q →
                pos = pausedPosition v0)).
  { intros v0 e0 q Hv. unfold outcome, final, trace, run, togglePlayPause.
    rewrite Hv.
    unfold startSlideAudio, playPregenerated, playGenerated, play, load,
      live, act.
    steps. branches.
    all: repeat split; try done.
    all: try (intros Hin; set_solver).
    all: intros s pos Hin;
      repeat (apply elem_of_cons in Hin as [Hin|Hin]);
      try discriminate; try (by apply elem_of_nil in Hin);
      try (by inversion Hin). }
  split; [|split].
  - destruct (isPlaying (st v)) eqn:Hv; [|by apply Hstopped].
    unfold outcome, run, togglePlayPause. rewrite Hv.
    unfold pauseAudio, live, act. steps. by destruct (audioRef p).
  - intros Hv. split.
    + intros s pos. unfold trace, run, togglePlayPause. rewrite Hv.
      unfold pauseAudio, live, act. steps.
      destruct (audioRef p); simpl; set_solver.
    + intros el Hel.
      assert (Hrun : run (togglePlayPause v e) p = run pauseAudio p)
        by (unfold togglePlayPause; by rewrite Hv).
      destruct (pauseAudio_saves_position p el Hel) as (Hpos & Hplay & _ & Htr).
      unfold final, trace in *. rewrite Hrun.
      repeat split; try done.
      intros v' e' s pos Hv' Hsaved Hin.
      destruct (Hstopped v' e' (run pauseAudio p).2.1 Hv')
        as (_ & _ & _ & Hat).
      unfold trace in Hat. rewrite (Hat _ _ Hin), Hsaved. exact Hpos.
  - intros Hv. by destruct (Hstopped v e p Hv) as (_ & H1 & H2 & H3).
Qed.

(** The button pressed at 3.5 s of the narration. *)
Lemma play_button_pauses_then_resumes_at_sample :
  pausedPosition (final (togglePlayPause playingPage answering) playingPage)
  = 7 # 2
  ∧ trace (togglePlayPause playingPage answering) playingPage = [AudioPause].
Proof.
  destruct (play_button_pauses_then_resumes playingPage answering playingPage)
    as (_ & Hplaying & _).
  destruct (Hplaying eq_refl) as (_ & Hpause).
  destruct (Hpause _ eq_refl) as (Hpos & _ & Htr & _).
  split; [exact Hpos | exact Htr].
Defined.


End Narration.
